(** * Habit tracker: the store and the completion/streak engine

    A shallow embedding of [models/habit.py], [repositories/habit_repository.py]
    and [services/habit_service.py], followed by the properties of the engine:
    streak computation, duplicate completion, the streak invariant, the frame
    of updates, statistics and identifier assignment. *)

From Stdlib Require Import ZArith List String Ascii Bool Lia DecimalString Sorted.
Import ListNotations.
Local Open Scope Z_scope.

(** ** The Python values the program computes with *)

Module Py.

(** A [str] is a sequence of Unicode code points; [len] counts them. *)
Definition str := list N.

Definition lit (s : string) : str := map N_of_ascii (list_ascii_of_string s).

Definition len {A : Type} (l : list A) : Z := Z.of_nat (List.length l).

(** [str(n)] for an [int]. *)
Definition str_of_int (n : Z) : str := lit (NilZero.string_of_int (Z.to_int n)).

(** ["%0<width>d" % n]. *)
Definition zfill (width : nat) (n : Z) : str :=
  let sign := if n <? 0 then lit "-" else [] in
  let digits := lit (NilZero.string_of_uint (N.to_uint (Z.abs_N n))) in
  sign ++ repeat (N_of_ascii "0") (width - List.length sign - List.length digits) ++ digits.

(** [sum(iterable)] over integers, starting from 0. *)
Definition sum (l : list Z) : Z := fold_left Z.add l 0.

(** [all(iterable)]. *)
Definition all (l : list bool) : bool := forallb (fun b => b) l.

(** *** [datetime.date]: a calendar date is its year, month and day. *)
Record date := mkdate { year : Z; month : Z; day : Z }.

(** Dates compare as the tuples (year, month, day). *)
Definition date_cmp (a b : date) : comparison :=
  match year a ?= year b with
  | Eq => match month a ?= month b with
          | Eq => day a ?= day b
          | c => c
          end
  | c => c
  end.

Definition date_eqb (a b : date) : bool :=
  match date_cmp a b with Eq => true | _ => false end.

Definition date_gtb (a b : date) : bool :=
  match date_cmp a b with Gt => true | _ => false end.

(** [a == b] where either side may be [None]. *)
Definition opt_date_eqb (a b : option date) : bool :=
  match a, b with
  | Some x, Some y => date_eqb x y
  | None, None => true
  | _, _ => false
  end.

Definition _DAYS_BEFORE_MONTH : list Z :=
  [-1; 0; 31; 59; 90; 120; 151; 181; 212; 243; 273; 304; 334].

Definition _is_leap (y : Z) : bool :=
  (y mod 4 =? 0) && (negb (y mod 100 =? 0) || (y mod 400 =? 0)).

Definition _days_before_year (y : Z) : Z :=
  let y' := y - 1 in y' * 365 + y' / 4 - y' / 100 + y' / 400.

Definition _days_before_month (y m : Z) : Z :=
  nth (Z.to_nat m) _DAYS_BEFORE_MONTH 0
  + (if (2 <? m) && _is_leap y then 1 else 0).

Definition toordinal (d : date) : Z :=
  _days_before_year (year d) + _days_before_month (year d) (month d) + day d.

(** [(a - b).days]. *)
Definition days_between (a b : date) : Z := toordinal a - toordinal b.

Definition isoformat (d : date) : str :=
  zfill 4 (year d) ++ lit "-" ++ zfill 2 (month d) ++ lit "-" ++ zfill 2 (day d).

Definition _DAYS_IN_MONTH : list Z :=
  [-1; 31; 28; 31; 30; 31; 30; 31; 31; 30; 31; 30; 31].

Definition _days_in_month (y m : Z) : Z :=
  if (m =? 2) && _is_leap y then 29 else nth (Z.to_nat m) _DAYS_IN_MONTH 0.

(** The check the [date] constructor makes on its fields. *)
Definition date_valid (d : date) : bool :=
  (1 <=? year d) && (year d <=? 9999)
  && (1 <=? month d) && (month d <=? 12)
  && (1 <=? day d) && (day d <=? _days_in_month (year d) (month d)).

(** *** [dict] with integer keys; iteration follows insertion order. *)
Definition dict (V : Type) := list (Z * V).

Section Dict.
Context {V : Type}.

Fixpoint dict_get (k : Z) (d : dict V) : option V :=
  match d with
  | [] => None
  | (k', v) :: d' => if k =? k' then Some v else dict_get k d'
  end.

Definition dict_mem (k : Z) (d : dict V) : bool :=
  match dict_get k d with Some _ => true | None => false end.

(** [d[k] = v]: an existing key keeps its place, a new one goes last. *)
Fixpoint dict_set (k : Z) (v : V) (d : dict V) : dict V :=
  match d with
  | [] => [(k, v)]
  | (k', v') :: d' =>
      if k =? k' then (k, v) :: d' else (k', v') :: dict_set k v d'
  end.

(** [del d[k]]. *)
Fixpoint dict_del (k : Z) (d : dict V) : dict V :=
  match d with
  | [] => []
  | (k', v') :: d' => if k =? k' then d' else (k', v') :: dict_del k d'
  end.

Definition dict_keys (d : dict V) : list Z := map fst d.
Definition dict_values (d : dict V) : list V := map snd d.
End Dict.

End Py.

Import Py.

(** ** Exceptions and results *)

(** The exceptions an engine call can end with: the three domain errors of
    [habit_service.py] that are raised, and pydantic's [ValidationError],
    raised by the model constructors of [models/habit.py]. *)
Inductive exn : Type :=
| InvalidHabitDataError (field value constraint : str)
| HabitNotFoundError (habit_id : Z)
| DuplicateCompletionError (habit_name completion_date : str)
| ValidationError.

Inductive result (A : Type) : Type :=
| Ok (a : A)
| Err (e : exn).
Arguments Ok {A} a.
Arguments Err {A} e.

(** [HabitServiceError.error_code]. *)
Definition error_code (e : exn) : option str :=
  match e with
  | InvalidHabitDataError _ _ _ => Some (lit "INVALID_HABIT_DATA")
  | HabitNotFoundError _ => Some (lit "HABIT_NOT_FOUND")
  | DuplicateCompletionError _ _ => Some (lit "DUPLICATE_COMPLETION")
  | ValidationError => None
  end.

(** ** models/habit.py *)

Inductive Status : Type := pending | completed.

Definition Status_eqb (a b : Status) : bool :=
  match a, b with
  | pending, pending | completed, completed => true
  | _, _ => false
  end.

Module Habit.

Record t := mk {
  id : Z;
  name : str;
  description : option str;
  status : Status;
  streak_days : Z;
  last_completed_at : option date
}.

(** Keyword arguments of the constructor: a dict over the field names, a
    key being present or absent. *)
Record kwargs := mk_kwargs {
  k_id : option Z;
  k_name : option str;
  k_description : option (option str);
  k_status : option Status;
  k_streak_days : option Z;
  k_last_completed_at : option (option date)
}.

Definition or_else {A : Type} (o : option A) (d : A) : A :=
  match o with Some a => a | None => d end.

(** [base.update(over)], also [{**base, **over}]. *)
Definition dict_update (base over : kwargs) : kwargs :=
  {| k_id := match k_id over with Some v => Some v | None => k_id base end;
     k_name := match k_name over with Some v => Some v | None => k_name base end;
     k_description :=
       match k_description over with Some v => Some v | None => k_description base end;
     k_status := match k_status over with Some v => Some v | None => k_status base end;
     k_streak_days :=
       match k_streak_days over with Some v => Some v | None => k_streak_days base end;
     k_last_completed_at :=
       match k_last_completed_at over with
       | Some v => Some v
       | None => k_last_completed_at base
       end |}.

(** [habit.dict()]. *)
Definition dict (h : t) : kwargs :=
  {| k_id := Some (id h);
     k_name := Some (name h);
     k_description := Some (description h);
     k_status := Some (status h);
     k_streak_days := Some (streak_days h);
     k_last_completed_at := Some (last_completed_at h) |}.

(** The [Field] constraints. *)
Definition name_ok (s : str) : bool := (1 <=? len s) && (len s <=? 80).

Definition description_ok (o : option str) : bool :=
  match o with Some s => len s <=? 280 | None => true end.

Definition valid (h : t) : bool :=
  name_ok (name h) && description_ok (description h) && (0 <=? streak_days h).

(** The constructor [Habit], called on keyword arguments: [id] and [name]
    are required, the other fields have defaults, and every constraint is
    checked. *)
Definition new (kw : kwargs) : result t :=
  match k_id kw, k_name kw with
  | Some i, Some n =>
      let h := {| id := i;
                  name := n;
                  description := or_else (k_description kw) None;
                  status := or_else (k_status kw) pending;
                  streak_days := or_else (k_streak_days kw) 0;
                  last_completed_at := or_else (k_last_completed_at kw) None |} in
      if valid h then Ok h else Err ValidationError
  | _, _ => Err ValidationError
  end.

End Habit.

Module CreateHabitRequest.

Record t := mk { name : str; description : option str }.

Definition valid (r : t) : bool :=
  Habit.name_ok (name r) && Habit.description_ok (description r).

(** [CreateHabitRequest(name=n, description=d)]. *)
Definition new (n : str) (d : option str) : result t :=
  let r := {| name := n; description := d |} in
  if valid r then Ok r else Err ValidationError.

End CreateHabitRequest.

Module UpdateHabitRequest.

Record t := mk {
  name : option str;
  description : option str;
  status : option Status
}.

Definition valid (r : t) : bool :=
  match name r with Some n => Habit.name_ok n | None => true end
  && Habit.description_ok (description r).

Definition new (n d : option str) (s : option Status) : result t :=
  let r := {| name := n; description := d; status := s |} in
  if valid r then Ok r else Err ValidationError.

End UpdateHabitRequest.

Module StatsResponse.

Record t := mk {
  total_habits : Z;
  completed_today : Z;
  active_streaks_ge_3 : Z
}.

Definition valid (r : t) : bool :=
  (0 <=? total_habits r) && (0 <=? completed_today r)
  && (0 <=? active_streaks_ge_3 r).

Definition new (total today ge3 : Z) : result t :=
  let r := {| total_habits := total;
              completed_today := today;
              active_streaks_ge_3 := ge3 |} in
  if valid r then Ok r else Err ValidationError.

End StatsResponse.

(** ** repositories/habit_repository.py *)

Module HabitRepository.

(** The instance attributes. *)
Record t := mk { _habits : dict Habit.t; _next_id : Z }.

(** [HabitRepository()]. *)
Definition init : t := {| _habits := []; _next_id := 1 |}.

End HabitRepository.

(** A method call runs against the repository object: it ends with a value or
    an exception, and leaves the repository as it is at that point. *)
Definition M (A : Type) : Type :=
  HabitRepository.t -> result A * HabitRepository.t.

Definition ret {A : Type} (a : A) : M A := fun self => (Ok a, self).

Definition raise {A : Type} (e : exn) : M A := fun self => (Err e, self).

Definition bind {A B : Type} (m : M A) (k : A -> M B) : M B :=
  fun self =>
    match m self with
    | (Ok a, self') => k a self'
    | (Err e, self') => (Err e, self')
    end.

(** A constructor call inside a method. *)
Definition construct {A : Type} (r : result A) : M A := fun self => (r, self).

Declare Scope method_scope.
Delimit Scope method_scope with method.
Notation "x <- m ;; k" := (bind m (fun x => k))
  (at level 61, m at next level, right associativity) : method_scope.
Local Open Scope method_scope.

Module HabitRepositoryMethods.
Import HabitRepository.

Definition create (habit_data : Habit.kwargs) : M Habit.t :=
  fun self =>
    let habit_data_with_id :=
      Habit.dict_update habit_data
        (Habit.mk_kwargs (Some (_next_id self)) None None None None None) in
    match Habit.new habit_data_with_id with
    | Err e => (Err e, self)
    | Ok habit =>
        (Ok habit,
         {| _habits := dict_set (_next_id self) habit (_habits self);
            _next_id := _next_id self + 1 |})
    end.

Definition get_by_id (habit_id : Z) : M (option Habit.t) :=
  fun self => (Ok (dict_get habit_id (_habits self)), self).

Definition get_all : M (list Habit.t) :=
  fun self => (Ok (dict_values (_habits self)), self).

Definition update (habit_id : Z) (updates : Habit.kwargs)
  : M (option Habit.t) :=
  fun self =>
    match dict_get habit_id (_habits self) with
    | None => (Ok None, self)
    | Some current_habit =>
        let updated_data :=
          Habit.dict_update (Habit.dict current_habit) updates in
        match Habit.new updated_data with
        | Err e => (Err e, self)
        | Ok updated_habit =>
            (Ok (Some updated_habit),
             {| _habits := dict_set habit_id updated_habit (_habits self);
                _next_id := _next_id self |})
        end
    end.

Definition delete (habit_id : Z) : M bool :=
  fun self =>
    if dict_mem habit_id (_habits self)
    then (Ok true,
          {| _habits := dict_del habit_id (_habits self);
             _next_id := _next_id self |})
    else (Ok false, self).

Definition clear : M unit :=
  fun _ => (Ok tt, {| _habits := []; _next_id := 1 |}).

End HabitRepositoryMethods.

(** ** services/habit_service.py *)

Module HabitService.
Module repository := HabitRepositoryMethods.

Definition is_none {A : Type} (o : option A) : bool :=
  match o with None => true | Some _ => false end.

Definition create_habit (request : CreateHabitRequest.t) : M Habit.t :=
  let habit_data :=
    {| Habit.k_id := None;
       Habit.k_name := Some (CreateHabitRequest.name request);
       Habit.k_description := Some (CreateHabitRequest.description request);
       Habit.k_status := Some pending;
       Habit.k_streak_days := Some 0;
       Habit.k_last_completed_at := Some None |} in
  repository.create habit_data.

Definition get_habits (status : option Status) : M (list Habit.t) :=
  habits <- repository.get_all ;;
  ret (match status with
       | Some s => filter (fun habit => Status_eqb (Habit.status habit) s) habits
       | None => habits
       end).

Definition get_habit_by_id (habit_id : Z) : M Habit.t :=
  if habit_id <=? 0 then
    raise (InvalidHabitDataError (lit "habit_id") (str_of_int habit_id)
             (lit "Habit ID must be a positive integer"))
  else
    habit <- repository.get_by_id habit_id ;;
    match habit with
    | None => raise (HabitNotFoundError habit_id)
    | Some h => ret h
    end.

Definition update_habit (habit_id : Z) (request : UpdateHabitRequest.t)
  : M Habit.t :=
  if habit_id <=? 0 then
    raise (InvalidHabitDataError (lit "habit_id") (str_of_int habit_id)
             (lit "Habit ID must be a positive integer"))
  else
    existing_habit <- get_habit_by_id habit_id ;;
    if Py.all [is_none (UpdateHabitRequest.name request);
               is_none (UpdateHabitRequest.description request);
               is_none (UpdateHabitRequest.status request)]
    then
      raise (InvalidHabitDataError (lit "update_request") (lit "empty")
               (lit "At least one field must be provided for update"))
    else
      let updates :=
        {| Habit.k_id := None;
           Habit.k_name := UpdateHabitRequest.name request;
           Habit.k_description :=
             match UpdateHabitRequest.description request with
             | Some d => Some (Some d)
             | None => None
             end;
           Habit.k_status := UpdateHabitRequest.status request;
           Habit.k_streak_days := None;
           Habit.k_last_completed_at := None |} in
      updated_habit <- repository.update habit_id updates ;;
      match updated_habit with
      | None => raise (HabitNotFoundError habit_id)
      | Some h => ret h
      end.

Definition delete_habit (habit_id : Z) : M unit :=
  if habit_id <=? 0 then
    raise (InvalidHabitDataError (lit "habit_id") (str_of_int habit_id)
             (lit "Habit ID must be a positive integer"))
  else
    deleted <- repository.delete habit_id ;;
    if negb deleted then raise (HabitNotFoundError habit_id) else ret tt.

Definition _calculate_new_streak (habit : Habit.t) (completion_date : date)
  : Z :=
  match Habit.last_completed_at habit with
  | None => 1
  | Some last =>
      let days_diff := days_between completion_date last in
      if days_diff =? 1 then Habit.streak_days habit + 1 else 1
  end.

(** [today] is what [date.today()] returns during the call. The arguments
    are typed, so the [isinstance] tests of the source always pass and only
    the sign of [habit_id] is left to check. *)
Definition complete_habit_today (today : date) (habit_id : Z)
  (completion_date : option date) : M Habit.t :=
  if habit_id <=? 0 then
    raise (InvalidHabitDataError (lit "habit_id") (str_of_int habit_id)
             (lit "Habit ID must be a positive integer"))
  else
    let completion_date :=
      match completion_date with None => today | Some d => d end in
    if date_gtb completion_date today then
      raise (InvalidHabitDataError (lit "completion_date")
               (isoformat completion_date)
               (lit "Cannot complete habits for future dates"))
    else
      habit <- get_habit_by_id habit_id ;;
      if opt_date_eqb (Habit.last_completed_at habit) (Some completion_date)
      then
        raise (DuplicateCompletionError (Habit.name habit)
                 (isoformat completion_date))
      else
        let new_streak_days := _calculate_new_streak habit completion_date in
        let updates :=
          {| Habit.k_id := None;
             Habit.k_name := None;
             Habit.k_description := None;
             Habit.k_status := Some completed;
             Habit.k_streak_days := Some new_streak_days;
             Habit.k_last_completed_at := Some (Some completion_date) |} in
        updated_habit <- repository.update habit_id updates ;;
        match updated_habit with
        | None => raise (HabitNotFoundError habit_id)
        | Some h => ret h
        end.

Definition get_stats (today : date) : M StatsResponse.t :=
  habits <- repository.get_all ;;
  let total_habits := len habits in
  let completed_today :=
    Py.sum (map (fun _ => 1)
              (filter (fun habit =>
                         opt_date_eqb (Habit.last_completed_at habit) (Some today))
                 habits)) in
  let active_streaks_ge_3 :=
    Py.sum (map (fun _ => 1)
              (filter (fun habit => 3 <=? Habit.streak_days habit) habits)) in
  construct (StatsResponse.new total_habits completed_today active_streaks_ge_3).

End HabitService.

(** [HabitServiceError.message], as the [__init__] of each error class builds
    it; pydantic's [ValidationError] is not a [HabitServiceError]. *)
Definition message (e : exn) : option str :=
  match e with
  | HabitNotFoundError habit_id =>
      Some (lit "Habit with ID " ++ str_of_int habit_id
            ++ lit " not found. Please verify the habit ID exists.")
  | DuplicateCompletionError habit_name completion_date =>
      Some (lit "Habit '" ++ habit_name ++ lit "' is already completed for "
            ++ completion_date
            ++ lit ". Each habit can only be completed once per day.")
  | InvalidHabitDataError field value constraint =>
      Some (lit "Invalid value for " ++ field ++ lit ": '" ++ value
            ++ lit "'. " ++ constraint)
  | ValidationError => None
  end.

(** ** main.py

    The routes, called on arguments the framework has already parsed and
    validated; the module-level repository is the state they run against. *)

Module main.

(** A value in the JSON content of an error response. *)
Inductive json : Type :=
| JStr (s : str)
| JInt (n : Z)
| JNull.

Definition opt_str (o : option str) : json :=
  match o with Some s => JStr s | None => JNull end.

(** What a route sends back: the value it returned, the content an exception
    handler built, or the detail of an [HTTPException] (of which only the
    error code is kept). *)
Inductive body : Type :=
| BHabit (habit : Habit.t)
| BHabits (habits : list Habit.t)
| BStats (stats : StatsResponse.t)
| BNone
| BContent (content : list (str * json))
| BDetail (error_code : str).

Record response := mk_response { status_code : Z; sent : body }.

Definition habit_not_found_handler (exc : exn) (habit_id : Z) : response :=
  {| status_code := 404;
     sent := BContent [(lit "error", opt_str (message exc));
                       (lit "error_code", opt_str (error_code exc));
                       (lit "habit_id", JInt habit_id)] |}.

Definition duplicate_completion_handler (exc : exn)
  (habit_name completion_date : str) : response :=
  {| status_code := 409;
     sent := BContent [(lit "error", opt_str (message exc));
                       (lit "error_code", opt_str (error_code exc));
                       (lit "habit_name", JStr habit_name);
                       (lit "completion_date", JStr completion_date)] |}.

Definition invalid_habit_data_handler (exc : exn)
  (field value constraint : str) : response :=
  {| status_code := 400;
     sent := BContent [(lit "error", opt_str (message exc));
                       (lit "error_code", opt_str (error_code exc));
                       (lit "field", JStr field);
                       (lit "value", JStr value);
                       (lit "constraint", JStr constraint)] |}.

(** The response to an exception that leaves the [try] of a route: a
    [HabitServiceError] is raised again and goes to the handler registered
    for its class, any other exception becomes an [HTTPException] with
    status 500. *)
Definition on_exception (exc : exn) : response :=
  match exc with
  | HabitNotFoundError habit_id => habit_not_found_handler exc habit_id
  | DuplicateCompletionError habit_name completion_date =>
      duplicate_completion_handler exc habit_name completion_date
  | InvalidHabitDataError field value constraint =>
      invalid_habit_data_handler exc field value constraint
  | ValidationError =>
      {| status_code := 500; sent := BDetail (lit "INTERNAL_SERVER_ERROR") |}
  end.

Definition route := HabitRepository.t -> response * HabitRepository.t.

(** The [try] ... [except] every route is made of. *)
Definition respond {A : Type} (success : Z) (send : A -> body) (m : M A)
  : route :=
  fun repository =>
    match m repository with
    | (Ok a, repository') =>
        ({| status_code := success; sent := send a |}, repository')
    | (Err exc, repository') => (on_exception exc, repository')
    end.

Definition create_habit (request : CreateHabitRequest.t) : route :=
  respond 201 BHabit (HabitService.create_habit request).

Definition get_habits (status : option Status) : route :=
  respond 200 BHabits (HabitService.get_habits status).

Definition update_habit (habit_id : Z) (request : UpdateHabitRequest.t)
  : route :=
  respond 200 BHabit (HabitService.update_habit habit_id request).

Definition delete_habit (habit_id : Z) : route :=
  respond 204 (fun _ : unit => BNone) (HabitService.delete_habit habit_id).


Definition get_stats (today : date) : route :=
  respond 200 BStats (HabitService.get_stats today).

End main.

(** ** Runs of the engine *)

(** A call into the engine that can write to the store. *)
Inductive call : Type :=
| CreateHabit (request : CreateHabitRequest.t)
| UpdateHabit (habit_id : Z) (request : UpdateHabitRequest.t)
| CompleteHabit (habit_id : Z) (completion_date : option date)
| DeleteHabit (habit_id : Z).

(** The store after a call made when the clock reads [today], whether the
    call returned or raised. *)
Definition after_call (today : date) (c : call) (r : HabitRepository.t)
  : HabitRepository.t :=
  match c with
  | CreateHabit request => snd (HabitService.create_habit request r)
  | UpdateHabit habit_id request =>
      snd (HabitService.update_habit habit_id request r)
  | CompleteHabit habit_id completion_date =>
      snd (HabitService.complete_habit_today today habit_id completion_date r)
  | DeleteHabit habit_id => snd (HabitService.delete_habit habit_id r)
  end.

(** A trace lists the calls with the clock reading of each. *)
Definition trace := list (date * call).

Fixpoint run (tr : trace) (r : HabitRepository.t) : HabitRepository.t :=
  match tr with
  | [] => r
  | (today, c) :: tr' => run tr' (after_call today c r)
  end.

(** The identifiers of the habits created along a trace, in order. *)
Fixpoint created_ids (tr : trace) (r : HabitRepository.t) : list Z :=
  match tr with
  | [] => []
  | (today, c) :: tr' =>
      match c with
      | CreateHabit request =>
          match fst (HabitService.create_habit request r) with
          | Ok habit => [Habit.id habit]
          | Err _ => []
          end
      | _ => []
      end ++ created_ids tr' (after_call today c r)
  end.

(** [a <= b] on dates: not [a > b]. *)
Definition date_le (a b : date) : Prop := date_gtb a b = false.

(** The clock never runs backwards along the readings [ds]. *)
Fixpoint nondecreasing (ds : list date) : Prop :=
  match ds with
  | a :: (b :: _) as rest => date_le a b /\ nondecreasing rest
  | _ => True
  end.

(** ** What each call is expected to leave in a record *)

(** The record [h] with the supplied fields of [request] written over it. *)
Definition merged (h : Habit.t) (request : UpdateHabitRequest.t) : Habit.t :=
  {| Habit.id := Habit.id h;
     Habit.name :=
       match UpdateHabitRequest.name request with
       | Some n => n
       | None => Habit.name h
       end;
     Habit.description :=
       match UpdateHabitRequest.description request with
       | Some d => Some d
       | None => Habit.description h
       end;
     Habit.status :=
       match UpdateHabitRequest.status request with
       | Some s => s
       | None => Habit.status h
       end;
     Habit.streak_days := Habit.streak_days h;
     Habit.last_completed_at := Habit.last_completed_at h |}.

(** The record [h] completed on [D] with streak [s]. *)
Definition completed_on (h : Habit.t) (D : date) (s : Z) : Habit.t :=
  {| Habit.id := Habit.id h;
     Habit.name := Habit.name h;
     Habit.description := Habit.description h;
     Habit.status := completed;
     Habit.streak_days := s;
     Habit.last_completed_at := Some D |}.

(** The store with the record under [k] replaced. *)
Definition store_with (r : HabitRepository.t) (k : Z) (h : Habit.t)
  : HabitRepository.t :=
  {| HabitRepository._habits := dict_set k h (HabitRepository._habits r);
     HabitRepository._next_id := HabitRepository._next_id r |}.

(** The record a creation from [request] stores under identifier [i]. *)
Definition created (i : Z) (request : CreateHabitRequest.t) : Habit.t :=
  {| Habit.id := i;
     Habit.name := CreateHabitRequest.name request;
     Habit.description := CreateHabitRequest.description request;
     Habit.status := pending;
     Habit.streak_days := 0;
     Habit.last_completed_at := None |}.

(** The store with [h] added under the next identifier. *)
Definition store_add (r : HabitRepository.t) (h : Habit.t) : HabitRepository.t :=
  {| HabitRepository._habits :=
       dict_set (HabitRepository._next_id r) h (HabitRepository._habits r);
     HabitRepository._next_id := HabitRepository._next_id r + 1 |}.

(** The store without the record under [k]. *)
Definition store_without (r : HabitRepository.t) (k : Z) : HabitRepository.t :=
  {| HabitRepository._habits := dict_del k (HabitRepository._habits r);
     HabitRepository._next_id := HabitRepository._next_id r |}.

(** The three errors the engine raises on purpose. *)
Definition bad_id (habit_id : Z) : exn :=
  InvalidHabitDataError (lit "habit_id") (str_of_int habit_id)
    (lit "Habit ID must be a positive integer").

Definition empty_update : exn :=
  InvalidHabitDataError (lit "update_request") (lit "empty")
    (lit "At least one field must be provided for update").

Definition future_date (D : date) : exn :=
  InvalidHabitDataError (lit "completion_date") (isoformat D)
    (lit "Cannot complete habits for future dates").

(** The streak invariant of a record. *)
Definition streak_inv (h : Habit.t) : Prop :=
  (Habit.streak_days h = 0 <-> Habit.last_completed_at h = None)
  /\ (Habit.last_completed_at h <> None -> 1 <= Habit.streak_days h).

(** The store invariant: keys are the positive identifiers handed out so far,
    every record sits under its own identifier and meets the constraints of
    the [Habit] model. *)
Definition entry_ok (next_id : Z) (kv : Z * Habit.t) : Prop :=
  0 < fst kv < next_id
  /\ Habit.id (snd kv) = fst kv
  /\ Habit.valid (snd kv) = true.

Definition wf (r : HabitRepository.t) : Prop :=
  0 < HabitRepository._next_id r
  /\ Forall (entry_ok (HabitRepository._next_id r)) (HabitRepository._habits r).

(** No stored completion date is after [now]. *)
Definition stored_le (now : date) (r : HabitRepository.t) : Prop :=
  Forall (fun kv : Z * Habit.t =>
            forall d, Habit.last_completed_at (snd kv) = Some d -> date_le d now)
    (HabitRepository._habits r).

Definition opt_date_eq_dec (a b : option date) : {a = b} + {a <> b}.
Proof. repeat decide equality. Defined.

Definition all_streak_inv (r : HabitRepository.t) : Prop :=
  Forall (fun kv : Z * Habit.t => streak_inv (snd kv))
    (HabitRepository._habits r).

(** The number of habits last completed on [today], and the number with a
    streak of at least three days. *)
Definition count_completed_on (today : date) (habits : list Habit.t) : nat :=
  count_occ opt_date_eq_dec (map Habit.last_completed_at habits) (Some today).

Definition count_streak_ge_3 (habits : list Habit.t) : nat :=
  List.length (filter (fun h => 3 <=? Habit.streak_days h) habits).

(** The same record with another status. *)
Definition with_status (s : Status) (h : Habit.t) : Habit.t :=
  {| Habit.id := Habit.id h;
     Habit.name := Habit.name h;
     Habit.description := Habit.description h;
     Habit.status := s;
     Habit.streak_days := Habit.streak_days h;
     Habit.last_completed_at := Habit.last_completed_at h |}.

(** The store with the status of every record rewritten by [f]. *)
Definition restatus (f : Habit.t -> Status) (r : HabitRepository.t)
  : HabitRepository.t :=
  {| HabitRepository._habits :=
       map (fun kv : Z * Habit.t => (fst kv, with_status (f (snd kv)) (snd kv)))
         (HabitRepository._habits r);
     HabitRepository._next_id := HabitRepository._next_id r |}.

(** [first, first + 1, ...], [n] identifiers in all. *)
Definition ids_from (first : Z) (n : nat) : list Z :=
  map (fun i => first + Z.of_nat i) (seq 0 n).

(** ** A worked scenario

    A habit "Exercise" is created and completed on 15 and 16 January 2024. *)
Definition jan (d : Z) : date := mkdate 2024 1 d.

Definition exercise : CreateHabitRequest.t :=
  CreateHabitRequest.mk (lit "Exercise") None.

Definition only_status (s : Status) : UpdateHabitRequest.t :=
  UpdateHabitRequest.mk None None (Some s).

Definition nothing_supplied : UpdateHabitRequest.t :=
  UpdateHabitRequest.mk None None None.

Definition scenario : trace :=
  [(jan 15, CreateHabit exercise);
   (jan 15, CompleteHabit 1 None);
   (jan 16, CompleteHabit 1 (Some (jan 16)))].

Definition exercise_after (s : Z) (d : Z) : Habit.t :=
  Habit.mk 1 (lit "Exercise") None completed s (Some (jan d)).

(** The scenario of the specification: completions on 15, 15 again, 16 and
    20 January, then a manual status edit. *)
Definition documented_scenario : trace :=
  [(jan 20, CreateHabit exercise);
   (jan 20, CompleteHabit 1 (Some (jan 15)));
   (jan 20, CompleteHabit 1 (Some (jan 15)));
   (jan 20, CompleteHabit 1 (Some (jan 16)));
   (jan 20, CompleteHabit 1 (Some (jan 20)));
   (jan 20, UpdateHabit 1 (only_status pending))].

(** Three habits: one completed today (20 January) with streak 4, one
    completed on a past date, one never completed. *)
Definition three_habits : HabitRepository.t :=
  {| HabitRepository._habits :=
       [(1, Habit.mk 1 (lit "Exercise") None completed 4 (Some (jan 20)));
        (2, Habit.mk 2 (lit "Reading") None completed 1 (Some (jan 12)));
        (3, Habit.mk 3 (lit "Meditation") None pending 0 None)];
     HabitRepository._next_id := 4 |}.

(** The keys of the store, in listing order, go strictly up. *)
Definition keys_increasing (r : HabitRepository.t) : Prop :=
  StronglySorted Z.lt (dict_keys (HabitRepository._habits r)).

(** Each date is exactly one day after the one before it. *)
Fixpoint consecutive (ds : list date) : Prop :=
  match ds with
  | a :: (b :: _) as rest => days_between b a = 1 /\ consecutive rest
  | _ => True
  end.

(** The store after completing habit [habit_id] on each date of [ds] in
    turn, the clock reading [today] throughout. *)
Fixpoint complete_each (today : date) (habit_id : Z) (ds : list date)
  (r : HabitRepository.t) : HabitRepository.t :=
  match ds with
  | [] => r
  | d :: ds' =>
      complete_each today habit_id ds'
        (snd (HabitService.complete_habit_today today habit_id (Some d) r))
  end.

(** Whether an engine call, made when the clock reads [today], raises. *)
Definition call_error (today : date) (c : call) (r : HabitRepository.t)
  : option exn :=
  let error {A : Type} (x : result A * HabitRepository.t) :=
    match fst x with Ok _ => None | Err e => Some e end in
  match c with
  | CreateHabit request => error (HabitService.create_habit request r)
  | UpdateHabit habit_id request =>
      error (HabitService.update_habit habit_id request r)
  | CompleteHabit habit_id completion_date =>
      error (HabitService.complete_habit_today today habit_id completion_date r)
  | DeleteHabit habit_id => error (HabitService.delete_habit habit_id r)
  end.

(** The requests of a call passed the constructor of their model. *)
Definition validated (c : call) : Prop :=
  match c with
  | CreateHabit request => CreateHabitRequest.valid request = true
  | UpdateHabit _ request => UpdateHabitRequest.valid request = true
  | _ => True
  end.

(** The smallest dict [repository.create] accepts: a name and nothing else. *)
Definition just_name (n : str) : Habit.kwargs :=
  Habit.mk_kwargs None (Some n) None None None None.

(** A scenario with a deletion in the middle. *)
Definition with_deletion : trace :=
  [(jan 15, CreateHabit exercise);
   (jan 15, CreateHabit exercise);
   (jan 15, DeleteHabit 1);
   (jan 16, CreateHabit exercise)].

(** Three consecutive days, and a habit last completed on the last day of a
    leap February. *)
Definition three_days : list date := [jan 15; jan 16; jan 17].

Definition leap_february : Habit.t :=
  Habit.mk 1 (lit "Exercise") None completed 5 (Some (mkdate 2024 2 29)).

(** The identifiers whose deletion returned along a trace, in order. *)
Fixpoint deleted_ids (tr : trace) (r : HabitRepository.t) : list Z :=
  match tr with
  | [] => []
  | (today, c) :: tr' =>
      match c with
      | DeleteHabit habit_id =>
          match fst (HabitService.delete_habit habit_id r) with
          | Ok _ => [habit_id]
          | Err _ => []
          end
      | _ => []
      end ++ deleted_ids tr' (after_call today c r)
  end.

(** [k] is not among the identifiers [deleted]. *)
Definition not_among (deleted : list Z) (k : Z) : bool :=
  negb (existsb (Z.eqb k) deleted).

(** ** Dates *)

Lemma date_cmp_eq (a b : date) : date_cmp a b = Eq <-> a = b.
Proof.
  destruct a as [y m d], b as [y' m' d']; unfold date_cmp; simpl.
  destruct (Z.compare_spec y y'); [subst | split; [discriminate | intros [=]; lia] ..].
  destruct (Z.compare_spec m m'); [subst | split; [discriminate | intros [=]; lia] ..].
  destruct (Z.compare_spec d d'); [subst | split; [discriminate | intros [=]; lia] ..].
  split; reflexivity.
Qed.

Lemma date_eqb_eq (a b : date) : date_eqb a b = true <-> a = b.
Proof.
  unfold date_eqb. rewrite <- date_cmp_eq.
  destruct (date_cmp a b); split; congruence.
Qed.

Lemma opt_date_eqb_eq (a b : option date) : opt_date_eqb a b = true <-> a = b.
Proof.
  destruct a as [x|], b as [y|]; simpl; try (split; congruence).
  rewrite date_eqb_eq. split; congruence.
Qed.

Lemma opt_date_eqb_neq (a b : option date) : opt_date_eqb a b = false <-> a <> b.
Proof.
  rewrite <- opt_date_eqb_eq. destruct (opt_date_eqb a b); split; congruence.
Qed.


Lemma date_le_trans (a b c : date) : date_le a b -> date_le b c -> date_le a c.
Proof.
  destruct a as [y1 m1 d1], b as [y2 m2 d2], c as [y3 m3 d3].
  unfold date_le, date_gtb, date_cmp; simpl.
  destruct (Z.compare_spec y1 y2), (Z.compare_spec y2 y3),
    (Z.compare_spec y1 y3); try lia; try discriminate; try reflexivity;
    destruct (Z.compare_spec m1 m2), (Z.compare_spec m2 m3),
      (Z.compare_spec m1 m3); try lia; try discriminate; try reflexivity;
    destruct (Z.compare_spec d1 d2), (Z.compare_spec d2 d3),
      (Z.compare_spec d1 d3); try lia; try discriminate; reflexivity.
Qed.

(** ** Dictionaries *)

Section DictFacts.
Context {V : Type}.
Implicit Types (d : dict V) (k : Z) (v : V).

Lemma dict_get_In k v d : dict_get k d = Some v -> In (k, v) d.
Proof.
  induction d as [|[k' v'] d IH]; simpl; [discriminate|].
  destruct (Z.eqb_spec k k') as [->|_].
  - intros [= ->]. now left.
  - intros H. right. now apply IH.
Qed.

Lemma dict_get_set k k' v d :
  dict_get k' (dict_set k v d) = if k' =? k then Some v else dict_get k' d.
Proof.
  induction d as [|[k0 v0] d IH]; simpl.
  - destruct (Z.eqb_spec k' k); reflexivity.
  - destruct (Z.eqb_spec k k0) as [->|Hk]; simpl.
    + destruct (Z.eqb_spec k' k0); reflexivity.
    + rewrite IH.
      destruct (Z.eqb_spec k' k0) as [->|_]; [|reflexivity].
      destruct (Z.eqb_spec k0 k); [congruence | reflexivity].
Qed.

Lemma In_dict_set k v d x : In x (dict_set k v d) -> x = (k, v) \/ In x d.
Proof.
  induction d as [|[k0 v0] d IH]; simpl.
  - intros [<-|[]]. now left.
  - destruct (k =? k0); simpl; intros [<-|H]; auto.
    destruct (IH H); auto.
Qed.

Lemma In_dict_del k d x : In x (dict_del k d) -> In x d.
Proof.
  induction d as [|[k0 v0] d IH]; simpl; [tauto|].
  destruct (k =? k0); simpl; intros H; [now right|].
  destruct H; auto.
Qed.

Lemma Forall_dict_set (P : Z * V -> Prop) k v d :
  Forall P d -> P (k, v) -> Forall P (dict_set k v d).
Proof.
  rewrite !Forall_forall. intros Hd Hkv x Hx.
  destruct (In_dict_set _ _ _ _ Hx) as [->|Hin]; auto.
Qed.

Lemma Forall_dict_del (P : Z * V -> Prop) k d :
  Forall P d -> Forall P (dict_del k d).
Proof.
  rewrite !Forall_forall. intros Hd x Hx. eauto using In_dict_del.
Qed.

(** Replacing the value of a key that is present keeps the length. *)
Lemma dict_set_length k v v0 d :
  dict_get k d = Some v0 -> List.length (dict_set k v d) = List.length d.
Proof.
  induction d as [|[k0 v1] d IH]; simpl; [discriminate|].
  destruct (k =? k0); simpl; [reflexivity|].
  intros H. now rewrite IH.
Qed.
End DictFacts.

(** ** The engine's calls in closed form *)

Import HabitRepository.

Lemma create_habit_eq (request : CreateHabitRequest.t) (r : HabitRepository.t) :
  HabitService.create_habit request r =
    if CreateHabitRequest.valid request
    then (Ok (created (_next_id r) request),
          store_add r (created (_next_id r) request))
    else (Err ValidationError, r).
Proof.
  unfold HabitService.create_habit, HabitRepositoryMethods.create,
    Habit.new, Habit.valid, CreateHabitRequest.valid; simpl.
  fold (created (_next_id r) request).
  rewrite andb_true_r.
  destruct (Habit.name_ok _ && Habit.description_ok _); reflexivity.
Qed.

Lemma get_habit_by_id_eq (habit_id : Z) (r : HabitRepository.t) :
  HabitService.get_habit_by_id habit_id r =
    if habit_id <=? 0 then (Err (bad_id habit_id), r)
    else match dict_get habit_id (_habits r) with
         | None => (Err (HabitNotFoundError habit_id), r)
         | Some h => (Ok h, r)
         end.
Proof.
  unfold HabitService.get_habit_by_id, bind, HabitRepositoryMethods.get_by_id.
  destruct (habit_id <=? 0); [reflexivity|].
  destruct (dict_get habit_id (_habits r)); reflexivity.
Qed.

Lemma repository_update_merged (habit_id : Z) (h : Habit.t)
  (request : UpdateHabitRequest.t) (r : HabitRepository.t) :
  dict_get habit_id (_habits r) = Some h ->
  HabitRepositoryMethods.update habit_id
    {| Habit.k_id := None;
       Habit.k_name := UpdateHabitRequest.name request;
       Habit.k_description :=
         match UpdateHabitRequest.description request with
         | Some d => Some (Some d)
         | None => None
         end;
       Habit.k_status := UpdateHabitRequest.status request;
       Habit.k_streak_days := None;
       Habit.k_last_completed_at := None |} r =
    if Habit.valid (merged h request)
    then (Ok (Some (merged h request)), store_with r habit_id (merged h request))
    else (Err ValidationError, r).
Proof.
  intros Hget. unfold HabitRepositoryMethods.update. rewrite Hget.
  unfold Habit.new, Habit.dict_update, Habit.dict; simpl.
  assert (E : forall h', h' = merged h request ->
            (if Habit.valid h' then Ok h' else Err ValidationError)
            = if Habit.valid (merged h request)
              then Ok (merged h request) else Err ValidationError)
    by (intros ? ->; reflexivity).
  destruct request as [[n|] [d|] [s|]]; simpl;
    (rewrite E by reflexivity);
    destruct (Habit.valid _); reflexivity.
Qed.

Lemma update_habit_eq (habit_id : Z) (request : UpdateHabitRequest.t)
  (r : HabitRepository.t) :
  HabitService.update_habit habit_id request r =
    if habit_id <=? 0 then (Err (bad_id habit_id), r)
    else match dict_get habit_id (_habits r) with
         | None => (Err (HabitNotFoundError habit_id), r)
         | Some h =>
             if Py.all [HabitService.is_none (UpdateHabitRequest.name request);
                        HabitService.is_none (UpdateHabitRequest.description request);
                        HabitService.is_none (UpdateHabitRequest.status request)]
             then (Err empty_update, r)
             else if Habit.valid (merged h request)
                  then (Ok (merged h request),
                        store_with r habit_id (merged h request))
                  else (Err ValidationError, r)
         end.
Proof.
  unfold HabitService.update_habit.
  destruct (habit_id <=? 0) eqn:Hid; [reflexivity|].
  unfold bind at 1. rewrite get_habit_by_id_eq, Hid.
  destruct (dict_get habit_id (_habits r)) as [h|] eqn:Hget; [|reflexivity].
  destruct (Py.all _); [reflexivity|].
  unfold bind. rewrite (repository_update_merged _ _ _ _ Hget).
  destruct (Habit.valid _); reflexivity.
Qed.

Lemma delete_habit_eq (habit_id : Z) (r : HabitRepository.t) :
  HabitService.delete_habit habit_id r =
    if habit_id <=? 0 then (Err (bad_id habit_id), r)
    else if dict_mem habit_id (_habits r)
         then (Ok tt, store_without r habit_id)
         else (Err (HabitNotFoundError habit_id), r).
Proof.
  unfold HabitService.delete_habit, bind, HabitRepositoryMethods.delete.
  destruct (habit_id <=? 0); [reflexivity|].
  destruct (dict_mem habit_id (_habits r)); reflexivity.
Qed.

Lemma complete_habit_today_eq (today : date) (habit_id : Z)
  (completion_date : option date) (r : HabitRepository.t) :
  HabitService.complete_habit_today today habit_id completion_date r =
    if habit_id <=? 0 then (Err (bad_id habit_id), r)
    else
      let D := match completion_date with None => today | Some d => d end in
      if date_gtb D today then (Err (future_date D), r)
      else match dict_get habit_id (_habits r) with
           | None => (Err (HabitNotFoundError habit_id), r)
           | Some h =>
               if opt_date_eqb (Habit.last_completed_at h) (Some D)
               then (Err (DuplicateCompletionError (Habit.name h) (isoformat D)), r)
               else
                 let h' :=
                   completed_on h D (HabitService._calculate_new_streak h D) in
                 if Habit.valid h'
                 then (Ok h', store_with r habit_id h')
                 else (Err ValidationError, r)
           end.
Proof.
  unfold HabitService.complete_habit_today.
  destruct (habit_id <=? 0) eqn:Hid; [reflexivity|].
  cbv zeta.
  set (D := match completion_date with None => today | Some d => d end).
  destruct (date_gtb D today); [reflexivity|].
  unfold bind at 1. rewrite get_habit_by_id_eq, Hid.
  destruct (dict_get habit_id (_habits r)) as [h|] eqn:Hget; [|reflexivity].
  destruct (opt_date_eqb _ _); [reflexivity|].
  unfold bind, HabitRepositoryMethods.update. rewrite Hget.
  unfold Habit.new, Habit.dict_update, Habit.dict; simpl.
  fold (completed_on h D (HabitService._calculate_new_streak h D)).
  destruct (Habit.valid _); reflexivity.
Qed.

(** ** What a call can do to the store *)

Lemma after_call_cases (today : date) (c : call) (r : HabitRepository.t) :
  after_call today c r = r
  \/ (exists request,
        c = CreateHabit request
        /\ CreateHabitRequest.valid request = true
        /\ after_call today c r = store_add r (created (_next_id r) request))
  \/ (exists k h request,
        dict_get k (_habits r) = Some h
        /\ Habit.valid (merged h request) = true
        /\ after_call today c r = store_with r k (merged h request))
  \/ (exists k h D,
        dict_get k (_habits r) = Some h
        /\ date_le D today
        /\ Habit.last_completed_at h <> Some D
        /\ Habit.valid
             (completed_on h D (HabitService._calculate_new_streak h D)) = true
        /\ after_call today c r =
             store_with r k
               (completed_on h D (HabitService._calculate_new_streak h D)))
  \/ (exists k, after_call today c r = store_without r k).
Proof.
  destruct c as [request | k request | k od | k]; simpl.
  - rewrite create_habit_eq.
    destruct (CreateHabitRequest.valid request) eqn:Hv; [|now left].
    right; left. exists request. auto.
  - rewrite update_habit_eq.
    destruct (k <=? 0); [now left|].
    destruct (dict_get k (_habits r)) as [h|] eqn:Hget; [|now left].
    destruct (Py.all _); [now left|].
    destruct (Habit.valid (merged h request)) eqn:Hv; [|now left].
    right; right; left. exists k, h, request. auto.
  - rewrite complete_habit_today_eq.
    destruct (k <=? 0); [now left|]. cbv zeta.
    set (D := match od with None => today | Some d => d end).
    destruct (date_gtb D today) eqn:Hgt; [now left|].
    destruct (dict_get k (_habits r)) as [h|] eqn:Hget; [|now left].
    destruct (opt_date_eqb _ _) eqn:Heq; [now left|].
    destruct (Habit.valid _) eqn:Hv; [|now left].
    right; right; right; left. exists k, h, D.
    apply opt_date_eqb_neq in Heq. auto.
  - rewrite delete_habit_eq.
    destruct (k <=? 0); [now left|].
    destruct (dict_mem k (_habits r)); [|now left].
    right; right; right; right. now exists k.
Qed.

Lemma after_call_next_id (today : date) (c : call) (r : HabitRepository.t) :
  _next_id (after_call today c r) =
    match c with
    | CreateHabit request =>
        if CreateHabitRequest.valid request
        then _next_id r + 1 else _next_id r
    | _ => _next_id r
    end.
Proof.
  destruct c as [request | k request | k od | k]; simpl.
  - rewrite create_habit_eq. now destruct (CreateHabitRequest.valid request).
  - rewrite update_habit_eq.
    destruct (k <=? 0); [reflexivity|].
    destruct (dict_get k (_habits r)); [|reflexivity].
    destruct (Py.all _); [reflexivity|].
    now destruct (Habit.valid _).
  - rewrite complete_habit_today_eq.
    destruct (k <=? 0); [reflexivity|]. cbv zeta.
    destruct (date_gtb _ today); [reflexivity|].
    destruct (dict_get k (_habits r)); [|reflexivity].
    destruct (opt_date_eqb _ _); [reflexivity|].
    now destruct (Habit.valid _).
  - rewrite delete_habit_eq.
    destruct (k <=? 0); [reflexivity|].
    now destruct (dict_mem k (_habits r)).
Qed.

(** ** Invariants of the store *)

Lemma created_valid (i : Z) (request : CreateHabitRequest.t) :
  Habit.valid (created i request) = CreateHabitRequest.valid request.
Proof.
  unfold Habit.valid, CreateHabitRequest.valid; simpl. apply andb_true_r.
Qed.

Lemma entry_ok_weaken (n n' : Z) (kv : Z * Habit.t) :
  n <= n' -> entry_ok n kv -> entry_ok n' kv.
Proof. unfold entry_ok. intuition lia. Qed.

Lemma wf_init : wf init.
Proof. split; [reflexivity | constructor]. Qed.

Lemma wf_lookup (r : HabitRepository.t) (k : Z) (h : Habit.t) :
  wf r -> dict_get k (_habits r) = Some h ->
  0 < k < _next_id r /\ Habit.id h = k /\ Habit.valid h = true.
Proof.
  intros [_ Hall] Hget. apply dict_get_In in Hget.
  rewrite Forall_forall in Hall. exact (Hall _ Hget).
Qed.

Lemma after_call_wf (today : date) (c : call) (r : HabitRepository.t) :
  wf r -> wf (after_call today c r).
Proof.
  intros Hwf.
  destruct (after_call_cases today c r)
    as [-> | [(request & _ & Hv & ->) | [(k & h & request & Hget & Hv & ->)
       | [(k & h & D & Hget & _ & _ & Hv & ->) | (k & ->)]]]];
    auto; destruct Hwf as [Hpos Hall].
  - split; simpl; [lia|].
    apply Forall_dict_set.
    + eapply Forall_impl; [|exact Hall].
      intros kv. apply entry_ok_weaken. lia.
    + repeat split; simpl; try lia. now rewrite created_valid.
  - destruct (wf_lookup r k h (conj Hpos Hall) Hget) as (Hk & Hid & _).
    split; simpl; [exact Hpos|].
    apply Forall_dict_set; [exact Hall|].
    repeat split; simpl; try lia; assumption.
  - destruct (wf_lookup r k h (conj Hpos Hall) Hget) as (Hk & Hid & _).
    split; simpl; [exact Hpos|].
    apply Forall_dict_set; [exact Hall|].
    repeat split; simpl; try lia; assumption.
  - split; simpl; [exact Hpos|]. now apply Forall_dict_del.
Qed.

Lemma run_wf (tr : trace) (r : HabitRepository.t) : wf r -> wf (run tr r).
Proof.
  revert r. induction tr as [|[today c] tr IH]; intros r Hwf; simpl; auto.
  apply IH, after_call_wf, Hwf.
Qed.

Lemma calculate_new_streak_cases (h : Habit.t) (D : date) :
  HabitService._calculate_new_streak h D =
    match Habit.last_completed_at h with
    | None => 1
    | Some last =>
        if days_between D last =? 1 then Habit.streak_days h + 1 else 1
    end.
Proof. reflexivity. Qed.

Lemma completed_on_streak_inv (h : Habit.t) (D : date) :
  streak_inv h ->
  streak_inv (completed_on h D (HabitService._calculate_new_streak h D)).
Proof.
  intros [Hiff Hge]. unfold streak_inv; simpl.
  assert (1 <= HabitService._calculate_new_streak h D) as Hs.
  { unfold HabitService._calculate_new_streak.
    destruct (Habit.last_completed_at h) as [last|]; [|lia].
    destruct (_ =? 1); [|lia].
    assert (1 <= Habit.streak_days h) by (apply Hge; discriminate). lia. }
  repeat split; intros; try discriminate; lia.
Qed.

Lemma after_call_streak_inv (today : date) (c : call) (r : HabitRepository.t) :
  all_streak_inv r -> all_streak_inv (after_call today c r).
Proof.
  intros Hall. unfold all_streak_inv in *.
  destruct (after_call_cases today c r)
    as [-> | [(request & _ & Hv & ->) | [(k & h & request & Hget & Hv & ->)
       | [(k & h & D & Hget & _ & _ & Hv & ->) | (k & ->)]]]];
    auto; simpl.
  - apply Forall_dict_set; [exact Hall|].
    unfold streak_inv; simpl. repeat split; intros; congruence.
  - apply Forall_dict_set; [exact Hall|].
    apply dict_get_In in Hget. rewrite Forall_forall in Hall.
    exact (Hall _ Hget).
  - apply Forall_dict_set; [exact Hall|].
    apply dict_get_In in Hget. rewrite Forall_forall in Hall.
    apply completed_on_streak_inv. exact (Hall _ Hget).
  - now apply Forall_dict_del.
Qed.

Lemma run_streak_inv (tr : trace) (r : HabitRepository.t) :
  all_streak_inv r -> all_streak_inv (run tr r).
Proof.
  revert r. induction tr as [|[today c] tr IH]; intros r H; simpl; auto.
  apply IH, after_call_streak_inv, H.
Qed.

Lemma stored_le_mono (now now' : date) (r : HabitRepository.t) :
  date_le now now' -> stored_le now r -> stored_le now' r.
Proof.
  intros Hle. unfold stored_le. apply Forall_impl.
  intros kv H d Hd. eapply date_le_trans; eauto.
Qed.

Lemma after_call_stored_le (today : date) (c : call) (r : HabitRepository.t) :
  stored_le today r -> stored_le today (after_call today c r).
Proof.
  intros Hall. unfold stored_le in *.
  destruct (after_call_cases today c r)
    as [-> | [(request & _ & Hv & ->) | [(k & h & request & Hget & Hv & ->)
       | [(k & h & D & Hget & HD & _ & Hv & ->) | (k & ->)]]]];
    auto; simpl.
  - apply Forall_dict_set; [exact Hall|]. simpl. discriminate.
  - apply Forall_dict_set; [exact Hall|].
    apply dict_get_In in Hget. rewrite Forall_forall in Hall.
    exact (Hall _ Hget).
  - apply Forall_dict_set; [exact Hall|]. simpl. now intros d [= <-].
  - now apply Forall_dict_del.
Qed.

Lemma run_stored_le (tr : trace) (now : date) (r : HabitRepository.t) :
  nondecreasing (map fst tr ++ [now]) ->
  stored_le (hd now (map fst tr)) r ->
  stored_le now (run tr r).
Proof.
  revert r. induction tr as [|[today c] tr IH]; intros r Hclock Hle; simpl in *.
  - exact Hle.
  - apply IH.
    + destruct (map fst tr ++ [now]) eqn:E; [exact I | apply Hclock].
    + apply stored_le_mono with (now := today).
      * destruct tr as [|[t' c'] tr]; simpl in *; apply Hclock.
      * apply after_call_stored_le, Hle.
Qed.

(** ** The documented scenarios, run on the model *)

Example toordinal_jan_15 : toordinal (jan 15) = 738900.
Proof. reflexivity. Qed.

Example leap_day_is_one_day_before_march :
  days_between (mkdate 2024 3 1) (mkdate 2024 2 29) = 1
  /\ days_between (mkdate 2023 3 1) (mkdate 2023 2 28) = 1
  /\ days_between (mkdate 2024 1 1) (mkdate 2023 12 31) = 1.
Proof. repeat split. Qed.

Example isoformat_jan_15 : isoformat (jan 15) = lit "2024-01-15".
Proof. reflexivity. Qed.

Example str_of_negative_id : str_of_int (-5) = lit "-5".
Proof. reflexivity. Qed.

Example documented_scenario_result :
  dict_get 1 (_habits (run documented_scenario init))
  = Some (Habit.mk 1 (lit "Exercise") None pending 1 (Some (jan 20))).
Proof. reflexivity. Qed.

Example documented_scenario_steps :
  fst (HabitService.create_habit exercise init)
  = Ok (Habit.mk 1 (lit "Exercise") None pending 0 None)
  /\ fst (HabitService.complete_habit_today (jan 20) 1 (Some (jan 15))
            (run (firstn 1 documented_scenario) init))
     = Ok (exercise_after 1 15)
  /\ fst (HabitService.complete_habit_today (jan 20) 1 (Some (jan 15))
            (run (firstn 2 documented_scenario) init))
     = Err (DuplicateCompletionError (lit "Exercise") (lit "2024-01-15"))
  /\ fst (HabitService.complete_habit_today (jan 20) 1 (Some (jan 16))
            (run (firstn 3 documented_scenario) init))
     = Ok (exercise_after 2 16)
  /\ fst (HabitService.complete_habit_today (jan 20) 1 (Some (jan 20))
            (run (firstn 4 documented_scenario) init))
     = Ok (exercise_after 1 20).
Proof. repeat split. Qed.

Example backfill_resets_streak :
  fst (HabitService.complete_habit_today (jan 20) 1 (Some (jan 10))
         (run scenario init))
  = Ok (exercise_after 1 10).
Proof. reflexivity. Qed.

Example documented_stats :
  HabitService.get_stats (jan 20) three_habits
  = (Ok (StatsResponse.mk 3 1 1), three_habits).
Proof. reflexivity. Qed.

Example identifiers_after_deletion :
  created_ids
    [(jan 15, CreateHabit exercise); (jan 15, DeleteHabit 1);
     (jan 15, CreateHabit exercise); (jan 16, DeleteHabit 2);
     (jan 16, CreateHabit exercise)] init
  = [1; 2; 3].
Proof. reflexivity. Qed.

(** * Properties of the engine *)

(** C1. For a habit stored under a positive identifier and a completion date
    [D] (the one given, or today when none is given) that is not after today
    and differs from the stored [last_completed_at], [complete_habit_today]
    returns and performs one store update that writes [status = completed],
    [last_completed_at = D] and the new streak: 1 if the habit was never
    completed, the old streak plus 1 if [D] is exactly one day after the last
    completion, and 1 for any other gap; the other fields are kept. *)
Theorem complete_habit_writes_streak :
  forall (today : date) (r : HabitRepository.t) (habit_id : Z) (h : Habit.t)
         (completion_date : option date) (D : date),
    0 < habit_id ->
    dict_get habit_id (_habits r) = Some h ->
    Habit.valid h = true ->
    D = match completion_date with None => today | Some d => d end ->
    date_le D today ->
    Habit.last_completed_at h <> Some D ->
    exists s : Z,
      HabitService.complete_habit_today today habit_id completion_date r
        = (Ok (completed_on h D s), store_with r habit_id (completed_on h D s))
      /\ (Habit.last_completed_at h = None -> s = 1)
      /\ (forall last, Habit.last_completed_at h = Some last ->
            days_between D last = 1 -> s = Habit.streak_days h + 1)
      /\ (forall last, Habit.last_completed_at h = Some last ->
            days_between D last <> 1 -> s = 1).
Proof.
  intros today r habit_id h od D Hid Hget Hvalid HD Hle Hneq.
  exists (HabitService._calculate_new_streak h D).
  split.
  - rewrite complete_habit_today_eq.
    destruct (Z.leb_spec habit_id 0); [lia|]. cbv zeta. rewrite <- HD.
    rewrite Hle, Hget.
    apply opt_date_eqb_neq in Hneq. rewrite Hneq.
    assert (Habit.valid
              (completed_on h D (HabitService._calculate_new_streak h D)) = true)
      as ->; [|reflexivity].
    unfold Habit.valid in *; simpl.
    apply andb_true_iff in Hvalid as [Hnd Hs]. rewrite Hnd; simpl.
    apply Z.leb_le in Hs. apply Z.leb_le.
    unfold HabitService._calculate_new_streak.
    destruct (Habit.last_completed_at h); [|lia].
    destruct (_ =? 1); lia.
  - rewrite calculate_new_streak_cases.
    repeat split.
    + now intros ->.
    + intros last -> Hd. now rewrite Hd.
    + intros last -> Hd. apply Z.eqb_neq in Hd. now rewrite Hd.
Qed.

Lemma complete_habit_writes_streak_witness :
  exists s : Z,
    HabitService.complete_habit_today (jan 20) 1 (Some (jan 16))
      (run [(jan 15, CreateHabit exercise); (jan 15, CompleteHabit 1 None)] init)
    = (Ok (completed_on (exercise_after 1 15) (jan 16) s),
       store_with
         (run [(jan 15, CreateHabit exercise); (jan 15, CompleteHabit 1 None)] init)
         1 (completed_on (exercise_after 1 15) (jan 16) s))
    /\ (Habit.last_completed_at (exercise_after 1 15) = None -> s = 1)
    /\ (forall last, Habit.last_completed_at (exercise_after 1 15) = Some last ->
          days_between (jan 16) last = 1 ->
          s = Habit.streak_days (exercise_after 1 15) + 1)
    /\ (forall last, Habit.last_completed_at (exercise_after 1 15) = Some last ->
          days_between (jan 16) last <> 1 -> s = 1).
Proof.
  apply (complete_habit_writes_streak (jan 20)
           (run [(jan 15, CreateHabit exercise); (jan 15, CompleteHabit 1 None)] init)
           1 (exercise_after 1 15) (Some (jan 16)) (jan 16)).
  - lia.
  - reflexivity.
  - reflexivity.
  - reflexivity.
  - reflexivity.
  - discriminate.
Defined.

Lemma duplicate_completion_eq (today : date) (habit_id : Z) (h : Habit.t)
  (D : date) (r : HabitRepository.t) :
  0 < habit_id ->
  dict_get habit_id (_habits r) = Some h ->
  Habit.last_completed_at h = Some D ->
  date_le D today ->
  HabitService.complete_habit_today today habit_id (Some D) r
  = (Err (DuplicateCompletionError (Habit.name h) (isoformat D)), r).
Proof.
  intros Hid Hget Hlast Hle. rewrite complete_habit_today_eq.
  destruct (Z.leb_spec habit_id 0); [lia|]. cbv zeta.
  rewrite Hle, Hget, Hlast.
  assert (opt_date_eqb (Some D) (Some D) = true) as ->
    by now apply opt_date_eqb_eq.
  reflexivity.
Qed.

Lemma complete_habit_today_ok (today : date) (habit_id : Z)
  (completion_date : option date) (r r1 : HabitRepository.t) (h1 : Habit.t) :
  HabitService.complete_habit_today today habit_id completion_date r
  = (Ok h1, r1) ->
  0 < habit_id
  /\ date_le (match completion_date with None => today | Some d => d end) today
  /\ dict_get habit_id (_habits r1) = Some h1
  /\ Habit.last_completed_at h1
     = Some (match completion_date with None => today | Some d => d end).
Proof.
  rewrite complete_habit_today_eq.
  destruct (Z.leb_spec habit_id 0); [discriminate|]. cbv zeta.
  destruct (date_gtb _ today) eqn:Hgt; [discriminate|].
  destruct (dict_get habit_id (_habits r)); [|discriminate].
  destruct (opt_date_eqb _ _); [discriminate|].
  destruct (Habit.valid _); [|discriminate].
  intros [= <- <-]. simpl. rewrite dict_get_set, Z.eqb_refl. auto.
Qed.

(** C2. In a store reached by any calls under a clock that never runs
    backwards, completing a habit on the date [D] it was last completed on
    fails with [DuplicateCompletionError] carrying the habit's name and [D],
    and leaves the store as it was; so does completing a second time on the
    date of a completion that has just succeeded; and whenever
    [complete_habit_today] fails, in any store, the store is left as it
    was. *)
Theorem duplicate_completion_rejected :
  (forall (tr : trace) (today : date) (habit_id : Z) (h : Habit.t) (D : date),
      nondecreasing (map fst tr ++ [today]) ->
      dict_get habit_id (_habits (run tr init)) = Some h ->
      Habit.last_completed_at h = Some D ->
      HabitService.complete_habit_today today habit_id (Some D) (run tr init)
      = (Err (DuplicateCompletionError (Habit.name h) (isoformat D)),
         run tr init))
  /\ (forall (today today' : date) (habit_id : Z)
             (completion_date : option date) (D : date)
             (r r1 : HabitRepository.t) (h1 : Habit.t),
        D = match completion_date with None => today | Some d => d end ->
        HabitService.complete_habit_today today habit_id completion_date r
        = (Ok h1, r1) ->
        date_le today today' ->
        HabitService.complete_habit_today today' habit_id (Some D) r1
        = (Err (DuplicateCompletionError (Habit.name h1) (isoformat D)), r1))
  /\ (forall (today : date) (habit_id : Z) (completion_date : option date)
             (r r' : HabitRepository.t) (e : exn),
        HabitService.complete_habit_today today habit_id completion_date r
        = (Err e, r') ->
        r' = r).
Proof.
  split; [|split].
  - intros tr today habit_id h D Hclock Hget Hlast.
    pose proof (run_wf tr init wf_init) as Hwf.
    destruct (wf_lookup _ _ _ Hwf Hget) as (Hk & _ & _).
    assert (stored_le today (run tr init)) as Hle
      by (apply run_stored_le; [exact Hclock | constructor]).
    unfold stored_le in Hle. rewrite Forall_forall in Hle.
    specialize (Hle _ (dict_get_In _ _ _ Hget) D Hlast). simpl in Hle.
    apply duplicate_completion_eq; auto. lia.
  - intros today today' habit_id od D r r1 h1 HD Hok Hclock.
    apply complete_habit_today_ok in Hok as (Hid & Hle & Hget & Hlast).
    rewrite <- HD in *.
    apply duplicate_completion_eq; auto.
    now apply date_le_trans with (b := today).
  - intros today habit_id od r r' e. rewrite complete_habit_today_eq.
    destruct (habit_id <=? 0); [now intros [= _ <-]|]. cbv zeta.
    destruct (date_gtb _ today); [now intros [= _ <-]|].
    destruct (dict_get habit_id (_habits r)); [|now intros [= _ <-]].
    destruct (opt_date_eqb _ _); [now intros [= _ <-]|].
    destruct (Habit.valid _); [discriminate | now intros [= _ <-]].
Qed.

Lemma duplicate_completion_rejected_witness :
  HabitService.complete_habit_today (jan 16) 1 (Some (jan 16)) (run scenario init)
  = (Err (DuplicateCompletionError (Habit.name (exercise_after 2 16))
            (isoformat (jan 16))),
     run scenario init)
  /\ HabitService.complete_habit_today (jan 17) 1 (Some (jan 16))
       (run scenario init)
     = (Err (DuplicateCompletionError (Habit.name (exercise_after 2 16))
               (isoformat (jan 16))),
        run scenario init)
  /\ init = init.
Proof.
  split; [|split].
  - apply (proj1 duplicate_completion_rejected scenario (jan 16) 1
             (exercise_after 2 16) (jan 16)).
    + simpl. repeat split; reflexivity.
    + reflexivity.
    + reflexivity.
  - apply (proj1 (proj2 duplicate_completion_rejected) (jan 16) (jan 17) 1
             (Some (jan 16)) (jan 16) (run (firstn 2 scenario) init)
             (run scenario init) (exercise_after 2 16)).
    + reflexivity.
    + reflexivity.
    + reflexivity.
  - apply (proj2 (proj2 duplicate_completion_rejected) (jan 15) 7 None init init
             (HabitNotFoundError 7)).
    reflexivity.
Defined.

(** C3. In every store the engine's calls can reach from the empty one, each
    habit has [streak_days = 0] exactly when it was never completed, and
    [streak_days >= 1] when it has a completion date. *)
Theorem reachable_streak_invariant :
  forall (tr : trace) (habit_id : Z) (h : Habit.t),
    dict_get habit_id (_habits (run tr init)) = Some h ->
    (Habit.streak_days h = 0 <-> Habit.last_completed_at h = None)
    /\ (Habit.last_completed_at h <> None -> 1 <= Habit.streak_days h).
Proof.
  intros tr habit_id h Hget.
  assert (all_streak_inv (run tr init)) as Hall
    by (apply run_streak_inv; constructor).
  unfold all_streak_inv in Hall. rewrite Forall_forall in Hall.
  exact (Hall _ (dict_get_In _ _ _ Hget)).
Qed.

Lemma reachable_streak_invariant_witness :
  (Habit.streak_days (exercise_after 2 16) = 0
   <-> Habit.last_completed_at (exercise_after 2 16) = None)
  /\ (Habit.last_completed_at (exercise_after 2 16) <> None ->
      1 <= Habit.streak_days (exercise_after 2 16)).
Proof.
  apply (reachable_streak_invariant scenario 1 (exercise_after 2 16)).
  reflexivity.
Defined.

Lemma merged_valid (h : Habit.t) (request : UpdateHabitRequest.t) :
  Habit.valid h = true -> UpdateHabitRequest.valid request = true ->
  Habit.valid (merged h request) = true.
Proof.
  unfold Habit.valid, UpdateHabitRequest.valid, merged; simpl.
  rewrite !andb_true_iff. intros [[Hn Hd] Hs] [Hn' Hd'].
  destruct request as [[n|] [d|] s]; simpl in *; auto.
Qed.

(** C4. For a habit stored under a positive identifier and a payload with at
    least one non-null field, [update_habit] either returns the record it
    stored, in which every supplied field has the supplied value, or raises
    pydantic's [ValidationError] and leaves the store as it was; in both
    cases the record then stored keeps its [id], [streak_days] and
    [last_completed_at] and every field that was not supplied, the other
    records and the identifier counter are untouched; and the call returns
    whenever the stored record and the payload meet the models'
    constraints. *)
Theorem update_habit_frame :
  forall (r : HabitRepository.t) (habit_id : Z) (h : Habit.t)
         (request : UpdateHabitRequest.t),
    0 < habit_id ->
    dict_get habit_id (_habits r) = Some h ->
    (UpdateHabitRequest.name request <> None
     \/ UpdateHabitRequest.description request <> None
     \/ UpdateHabitRequest.status request <> None) ->
    exists (res : result Habit.t) (r' : HabitRepository.t) (stored : Habit.t),
      HabitService.update_habit habit_id request r = (res, r')
      /\ dict_get habit_id (_habits r') = Some stored
      /\ (forall k, k <> habit_id ->
            dict_get k (_habits r') = dict_get k (_habits r))
      /\ _next_id r' = _next_id r
      /\ Habit.id stored = Habit.id h
      /\ Habit.streak_days stored = Habit.streak_days h
      /\ Habit.last_completed_at stored = Habit.last_completed_at h
      /\ (UpdateHabitRequest.name request = None ->
          Habit.name stored = Habit.name h)
      /\ (UpdateHabitRequest.description request = None ->
          Habit.description stored = Habit.description h)
      /\ (UpdateHabitRequest.status request = None ->
          Habit.status stored = Habit.status h)
      /\ ((res = Ok stored
           /\ (forall n, UpdateHabitRequest.name request = Some n ->
                 Habit.name stored = n)
           /\ (forall d, UpdateHabitRequest.description request = Some d ->
                 Habit.description stored = Some d)
           /\ (forall s, UpdateHabitRequest.status request = Some s ->
                 Habit.status stored = s))
          \/ (res = Err ValidationError /\ r' = r))
      /\ (Habit.valid h = true -> UpdateHabitRequest.valid request = true ->
          res = Ok stored).
Proof.
  intros r habit_id h request Hid Hget Hsome.
  assert (Py.all [HabitService.is_none (UpdateHabitRequest.name request);
                  HabitService.is_none (UpdateHabitRequest.description request);
                  HabitService.is_none (UpdateHabitRequest.status request)]
          = false) as Hall.
  { destruct request as [[n|] [d|] [s|]]; simpl in *; try reflexivity.
    destruct Hsome as [H|[H|H]]; congruence. }
  rewrite update_habit_eq.
  destruct (Z.leb_spec habit_id 0); [lia|].
  rewrite Hget, Hall.
  destruct (Habit.valid (merged h request)) eqn:Hv.
  - exists (Ok (merged h request)), (store_with r habit_id (merged h request)),
      (merged h request).
    split; [reflexivity|]. simpl.
    split; [rewrite dict_get_set, Z.eqb_refl; reflexivity|].
    split.
    { intros k Hk. rewrite dict_get_set.
      destruct (Z.eqb_spec k habit_id); [contradiction | reflexivity]. }
    repeat split; auto; try (now intros ->).
    left. repeat split; intros ? Heq; now rewrite Heq.
  - exists (Err ValidationError), r, h.
    split; [reflexivity|].
    repeat split; auto.
    intros Hh Hreq. rewrite (merged_valid h request Hh Hreq) in Hv. discriminate.
Qed.

Lemma update_habit_frame_witness :
  exists (res : result Habit.t) (r' : HabitRepository.t) (stored : Habit.t),
    HabitService.update_habit 1 (only_status pending) (run scenario init)
    = (res, r')
    /\ dict_get 1 (_habits r') = Some stored
    /\ (forall k, k <> 1 ->
          dict_get k (_habits r') = dict_get k (_habits (run scenario init)))
    /\ _next_id r' = _next_id (run scenario init)
    /\ Habit.id stored = Habit.id (exercise_after 2 16)
    /\ Habit.streak_days stored = Habit.streak_days (exercise_after 2 16)
    /\ Habit.last_completed_at stored
       = Habit.last_completed_at (exercise_after 2 16)
    /\ (UpdateHabitRequest.name (only_status pending) = None ->
        Habit.name stored = Habit.name (exercise_after 2 16))
    /\ (UpdateHabitRequest.description (only_status pending) = None ->
        Habit.description stored = Habit.description (exercise_after 2 16))
    /\ (UpdateHabitRequest.status (only_status pending) = None ->
        Habit.status stored = Habit.status (exercise_after 2 16))
    /\ ((res = Ok stored
         /\ (forall n, UpdateHabitRequest.name (only_status pending) = Some n ->
               Habit.name stored = n)
         /\ (forall d,
               UpdateHabitRequest.description (only_status pending) = Some d ->
               Habit.description stored = Some d)
         /\ (forall s, UpdateHabitRequest.status (only_status pending) = Some s ->
               Habit.status stored = s))
        \/ (res = Err ValidationError /\ r' = run scenario init))
    /\ (Habit.valid (exercise_after 2 16) = true ->
        UpdateHabitRequest.valid (only_status pending) = true ->
        res = Ok stored).
Proof.
  apply (update_habit_frame (run scenario init) 1 (exercise_after 2 16)
           (only_status pending)).
  - lia.
  - reflexivity.
  - right; right. discriminate.
Defined.

(** ** Counting *)

Lemma sum_ones_from {A : Type} (l : list A) (a : Z) :
  fold_left Z.add (map (fun _ => 1) l) a = a + Z.of_nat (List.length l).
Proof.
  revert a. induction l as [|x l IH]; intros a; simpl fold_left.
  - simpl. lia.
  - rewrite IH. simpl List.length. lia.
Qed.

Lemma sum_ones {A : Type} (l : list A) :
  Py.sum (map (fun _ => 1) l) = Z.of_nat (List.length l).
Proof. unfold Py.sum. now rewrite sum_ones_from. Qed.

Lemma filter_completed_on (today : date) (habits : list Habit.t) :
  List.length
    (filter (fun habit =>
               opt_date_eqb (Habit.last_completed_at habit) (Some today))
       habits)
  = count_completed_on today habits.
Proof.
  unfold count_completed_on.
  induction habits as [|h habits IH]; simpl; [reflexivity|].
  destruct (opt_date_eq_dec (Habit.last_completed_at h) (Some today)) as [E|E].
  - apply opt_date_eqb_eq in E. rewrite E. simpl. now rewrite IH.
  - apply opt_date_eqb_neq in E. now rewrite E.
Qed.

Lemma get_stats_eq (today : date) (r : HabitRepository.t) :
  HabitService.get_stats today r =
    (Ok {| StatsResponse.total_habits := Z.of_nat (List.length (_habits r));
           StatsResponse.completed_today :=
             Z.of_nat (count_completed_on today (dict_values (_habits r)));
           StatsResponse.active_streaks_ge_3 :=
             Z.of_nat (count_streak_ge_3 (dict_values (_habits r))) |},
     r).
Proof.
  unfold HabitService.get_stats, bind, HabitRepositoryMethods.get_all, construct.
  rewrite !sum_ones, filter_completed_on.
  unfold StatsResponse.new, StatsResponse.valid, len, dict_values; simpl.
  rewrite length_map. fold (@dict_values Habit.t (_habits r)).
  fold (count_streak_ge_3 (dict_values (_habits r))).
  assert (forall n, (0 <=? Z.of_nat n) = true) as Hpos
    by (intros n; apply Z.leb_le; lia).
  now rewrite !Hpos.
Qed.

(** C5. [get_stats] returns, leaving the store as it was, the number of
    stored habits, the number of habits whose [last_completed_at] is the
    clock's date at the call, and the number of habits with
    [streak_days >= 3]; rewriting the status of the stored habits in any way
    changes neither of the two counts. *)
Theorem get_stats_counts :
  forall (today : date) (r : HabitRepository.t),
    HabitService.get_stats today r =
      (Ok {| StatsResponse.total_habits := Z.of_nat (List.length (_habits r));
             StatsResponse.completed_today :=
               Z.of_nat (count_completed_on today (dict_values (_habits r)));
             StatsResponse.active_streaks_ge_3 :=
               Z.of_nat (count_streak_ge_3 (dict_values (_habits r))) |},
       r)
    /\ (forall f : Habit.t -> Status,
          exists s s' : StatsResponse.t,
            HabitService.get_stats today r = (Ok s, r)
            /\ HabitService.get_stats today (restatus f r)
               = (Ok s', restatus f r)
            /\ StatsResponse.completed_today s' = StatsResponse.completed_today s
            /\ StatsResponse.active_streaks_ge_3 s'
               = StatsResponse.active_streaks_ge_3 s
            /\ StatsResponse.total_habits s' = StatsResponse.total_habits s).
Proof.
  intros today r. split; [apply get_stats_eq|].
  intros f. rewrite !get_stats_eq. eexists; eexists.
  split; [reflexivity|]. split; [reflexivity|]. simpl.
  unfold count_completed_on, count_streak_ge_3, dict_values.
  rewrite !map_map, length_map. simpl.
  repeat split. f_equal.
  induction (_habits r) as [|[k h] l IH]; simpl; [reflexivity|].
  destruct (3 <=? Habit.streak_days h); simpl; now rewrite IH.
Qed.

(** ** Identifier assignment *)

Lemma ids_from_cons (first : Z) (n : nat) :
  ids_from first (S n) = first :: ids_from (first + 1) n.
Proof.
  unfold ids_from. simpl. f_equal; [f_equal; lia|].
  rewrite <- seq_shift, map_map. apply map_ext. intros i. lia.
Qed.

Lemma nth_ids_from (first : Z) (n i : nat) :
  (i < n)%nat -> nth i (ids_from first n) 0 = first + Z.of_nat i.
Proof.
  revert first i. induction n as [|n IH]; intros first i Hi; [lia|].
  rewrite ids_from_cons. destruct i as [|i]; simpl nth; [lia|].
  rewrite IH by lia. lia.
Qed.

Lemma ids_from_length (first : Z) (n : nat) :
  List.length (ids_from first n) = n.
Proof. unfold ids_from. now rewrite length_map, length_seq. Qed.

Lemma created_ids_run (tr : trace) (r : HabitRepository.t) :
  exists n : nat,
    created_ids tr r = ids_from (_next_id r) n
    /\ _next_id (run tr r) = _next_id r + Z.of_nat n.
Proof.
  revert r. induction tr as [|[today c] tr IH]; intros r.
  - exists 0%nat. simpl. split; [reflexivity | lia].
  - destruct (IH (after_call today c r)) as (n & Hids & Hnext).
    pose proof (after_call_next_id today c r) as Hstep.
    cbn [created_ids run]. rewrite Hids, Hnext, Hstep.
    destruct c as [request | k request | k od | k];
      try (exists n; split; reflexivity).
    cbn [after_call]. rewrite create_habit_eq.
    destruct (CreateHabitRequest.valid request); cbn [fst snd app].
    + exists (S n). rewrite ids_from_cons. cbn [Habit.id created].
      split; [reflexivity | lia].
    + exists n. split; reflexivity.
Qed.

Lemma created_ids_from (tr : trace) (r : HabitRepository.t) :
  created_ids tr r = ids_from (_next_id r) (List.length (created_ids tr r))
  /\ _next_id (run tr r)
     = _next_id r + Z.of_nat (List.length (created_ids tr r)).
Proof.
  destruct (created_ids_run tr r) as (n & Hids & Hnext).
  rewrite Hids, ids_from_length. split; [reflexivity | exact Hnext].
Qed.

(** C6. Along any sequence of engine calls from the empty store (creations
    interleaved with deletions, updates and completions), the habits created
    get the identifiers 1, 2, ..., N in this order, N being the number of
    habits created: distinct, strictly increasing by 1, and not reused after
    a deletion; the identifier counter ends at N + 1, above every key in the
    store. *)
Theorem created_ids_count_up :
  forall (tr : trace),
    created_ids tr init = ids_from 1 (List.length (created_ids tr init))
    /\ (forall i : nat,
          (i < List.length (created_ids tr init))%nat ->
          nth i (created_ids tr init) 0 = Z.of_nat i + 1)
    /\ _next_id (run tr init)
       = Z.of_nat (List.length (created_ids tr init)) + 1
    /\ (forall (k : Z) (h : Habit.t),
          dict_get k (_habits (run tr init)) = Some h ->
          0 < k < _next_id (run tr init)).
Proof.
  intros tr. destruct (created_ids_from tr init) as [Hids Hnext].
  change (_next_id init) with 1 in *.
  split; [exact Hids|]. split; [|split].
  - intros i Hi. rewrite Hids. rewrite nth_ids_from; [lia | exact Hi].
  - rewrite Hnext. lia.
  - intros k h Hget.
    apply (wf_lookup _ _ _ (run_wf tr init wf_init) Hget).
Qed.

Lemma created_ids_count_up_witness :
  nth 1
    (created_ids
       [(jan 15, CreateHabit exercise); (jan 15, DeleteHabit 1);
        (jan 16, CreateHabit exercise)] init) 0
  = Z.of_nat 1 + 1
  /\ 0 < 2 < _next_id
               (run [(jan 15, CreateHabit exercise); (jan 15, DeleteHabit 1);
                     (jan 16, CreateHabit exercise)] init).
Proof.
  split.
  - apply (proj1 (proj2 (created_ids_count_up
             [(jan 15, CreateHabit exercise); (jan 15, DeleteHabit 1);
              (jan 16, CreateHabit exercise)])) 1%nat).
    simpl. lia.
  - apply (proj2 (proj2 (proj2 (created_ids_count_up
             [(jan 15, CreateHabit exercise); (jan 15, DeleteHabit 1);
              (jan 16, CreateHabit exercise)]))) 2
             (created 2 exercise)).
    reflexivity.
Defined.

(** C7, as the code has it. [create_habit] raises no [InvalidHabitDataError]:
    a name of fewer than 1 or more than 80 code points, or a description of
    more than 280, is refused by the model constructors with pydantic's
    [ValidationError], both when the request is built and when
    [create_habit] builds the [Habit], and the store is left as it was; with
    a name and a description within the limits, [create_habit] stores and
    returns the habit under the next identifier with [status = pending],
    [streak_days = 0] and [last_completed_at = None]. *)
Theorem create_habit_validation :
  forall (request : CreateHabitRequest.t) (r : HabitRepository.t),
    ((len (CreateHabitRequest.name request) < 1
      \/ 80 < len (CreateHabitRequest.name request)
      \/ (exists d, CreateHabitRequest.description request = Some d
                    /\ 280 < len d)) ->
     HabitService.create_habit request r = (Err ValidationError, r)
     /\ CreateHabitRequest.new (CreateHabitRequest.name request)
          (CreateHabitRequest.description request) = Err ValidationError)
    /\ (1 <= len (CreateHabitRequest.name request) <= 80 ->
        (forall d, CreateHabitRequest.description request = Some d ->
                   len d <= 280) ->
        exists h : Habit.t,
          HabitService.create_habit request r = (Ok h, store_add r h)
          /\ Habit.id h = _next_id r
          /\ Habit.name h = CreateHabitRequest.name request
          /\ Habit.description h = CreateHabitRequest.description request
          /\ Habit.status h = pending
          /\ Habit.streak_days h = 0
          /\ Habit.last_completed_at h = None).
Proof.
  intros request r. rewrite create_habit_eq.
  unfold CreateHabitRequest.new, CreateHabitRequest.valid, Habit.name_ok,
    Habit.description_ok.
  destruct request as [n d]; simpl. split.
  - intros H.
    assert ((1 <=? len n) && (len n <=? 80)
            && match d with Some s => len s <=? 280 | None => true end = false)
      as ->; [|split; reflexivity].
    destruct H as [H | [H | (d' & -> & H)]].
    + apply Z.leb_gt in H. now rewrite H.
    + apply Z.leb_gt in H. rewrite H. now rewrite andb_false_r.
    + apply Z.leb_gt in H. rewrite H. now rewrite andb_false_r.
  - intros [Hlo Hhi] Hd.
    apply Z.leb_le in Hlo, Hhi. rewrite Hlo, Hhi. simpl.
    assert (match d with Some s => len s <=? 280 | None => true end = true) as ->.
    { destruct d as [s|]; [|reflexivity]. apply Z.leb_le. now apply Hd. }
    eexists. split; [reflexivity|]. repeat split.
Qed.

Lemma create_habit_validation_witness :
  (HabitService.create_habit (CreateHabitRequest.mk [] None) init
   = (Err ValidationError, init)
   /\ CreateHabitRequest.new [] None = Err ValidationError)
  /\ (exists h : Habit.t,
        HabitService.create_habit exercise init = (Ok h, store_add init h)
        /\ Habit.id h = _next_id init
        /\ Habit.name h = CreateHabitRequest.name exercise
        /\ Habit.description h = CreateHabitRequest.description exercise
        /\ Habit.status h = pending
        /\ Habit.streak_days h = 0
        /\ Habit.last_completed_at h = None).
Proof.
  split.
  - apply (proj1 (create_habit_validation (CreateHabitRequest.mk [] None) init)).
    left. reflexivity.
  - apply (proj2 (create_habit_validation exercise init)).
    + vm_compute. split; discriminate.
    + intros d. discriminate.
Defined.

(** C7 as stated fails: the empty name has length 0, outside 1-80, and
    [create_habit] ends with pydantic's [ValidationError], which is not an
    [InvalidHabitDataError]. *)
Lemma create_habit_empty_name_not_invalid_habit_data :
  len (CreateHabitRequest.name (CreateHabitRequest.mk [] None)) < 1
  /\ fst (HabitService.create_habit (CreateHabitRequest.mk [] None) init)
     = Err ValidationError
  /\ ~ (exists field value constraint,
          fst (HabitService.create_habit (CreateHabitRequest.mk [] None) init)
          = Err (InvalidHabitDataError field value constraint)).
Proof.
  split; [reflexivity|]. split; [reflexivity|].
  intros (f & v & c & H). discriminate H.
Qed.

(** C8, as the code has it. For a positive identifier, [update_habit] checks
    that the habit exists before it looks at the payload: with a payload
    whose three fields are all null it fails with [InvalidHabitDataError]
    ("At least one field must be provided for update") when a habit is stored
    under the identifier, and with [HabitNotFoundError] when none is; the
    store is left as it was in both cases. *)
Theorem update_habit_empty_payload :
  forall (habit_id : Z) (request : UpdateHabitRequest.t)
         (r : HabitRepository.t),
    0 < habit_id ->
    UpdateHabitRequest.name request = None ->
    UpdateHabitRequest.description request = None ->
    UpdateHabitRequest.status request = None ->
    (forall h, dict_get habit_id (_habits r) = Some h ->
       HabitService.update_habit habit_id request r
       = (Err (InvalidHabitDataError (lit "update_request") (lit "empty")
                 (lit "At least one field must be provided for update")), r))
    /\ (dict_get habit_id (_habits r) = None ->
        HabitService.update_habit habit_id request r
        = (Err (HabitNotFoundError habit_id), r)).
Proof.
  intros habit_id request r Hid Hn Hd Hs. rewrite update_habit_eq.
  destruct (Z.leb_spec habit_id 0); [lia|].
  rewrite Hn, Hd, Hs. split.
  - intros h ->. reflexivity.
  - intros ->. reflexivity.
Qed.

Lemma update_habit_empty_payload_witness :
  HabitService.update_habit 1 nothing_supplied (run scenario init)
  = (Err (InvalidHabitDataError (lit "update_request") (lit "empty")
            (lit "At least one field must be provided for update")),
     run scenario init)
  /\ HabitService.update_habit 2 nothing_supplied (run scenario init)
     = (Err (HabitNotFoundError 2), run scenario init).
Proof.
  split.
  - apply (proj1 (update_habit_empty_payload 1 nothing_supplied
                    (run scenario init) ltac:(lia) eq_refl eq_refl eq_refl)
             (exercise_after 2 16)).
    reflexivity.
  - apply (proj2 (update_habit_empty_payload 2 nothing_supplied
                    (run scenario init) ltac:(lia) eq_refl eq_refl eq_refl)).
    reflexivity.
Defined.

(** C8 as stated fails: for the positive identifier 1, under which the empty
    store holds no habit, the all-null payload gets [HabitNotFoundError], not
    [InvalidHabitDataError]. *)
Lemma update_habit_empty_payload_missing_habit :
  0 < 1
  /\ UpdateHabitRequest.name nothing_supplied = None
  /\ UpdateHabitRequest.description nothing_supplied = None
  /\ UpdateHabitRequest.status nothing_supplied = None
  /\ HabitService.update_habit 1 nothing_supplied init
     = (Err (HabitNotFoundError 1), init)
  /\ ~ (exists field value constraint,
          fst (HabitService.update_habit 1 nothing_supplied init)
          = Err (InvalidHabitDataError field value constraint)).
Proof.
  repeat (split; [reflexivity|]).
  intros (f & v & c & H). discriminate H.
Qed.

(** C9. [complete_habit_today] checks its arguments before it looks for the
    habit: a non-positive identifier fails with [InvalidHabitDataError] on
    [habit_id]; a completion date after today fails with
    [InvalidHabitDataError] for every identifier, and with the one on
    [completion_date] ("Cannot complete habits for future dates") when the
    identifier is positive, whether or not a habit is stored under it; the
    store is left as it was; and [HabitNotFoundError] is raised only for a
    positive identifier with a date that is not after today and no habit
    stored under it. *)
Theorem complete_habit_validates_first :
  forall (today : date) (habit_id : Z) (completion_date : option date)
         (r : HabitRepository.t),
    (habit_id <= 0 ->
     HabitService.complete_habit_today today habit_id completion_date r
     = (Err (InvalidHabitDataError (lit "habit_id") (str_of_int habit_id)
               (lit "Habit ID must be a positive integer")), r))
    /\ (forall D, completion_date = Some D -> date_gtb D today = true ->
          (exists field value constraint,
             HabitService.complete_habit_today today habit_id completion_date r
             = (Err (InvalidHabitDataError field value constraint), r))
          /\ (0 < habit_id ->
              HabitService.complete_habit_today today habit_id completion_date r
              = (Err (InvalidHabitDataError (lit "completion_date")
                        (isoformat D)
                        (lit "Cannot complete habits for future dates")), r)))
    /\ (forall (missing : Z) (r' : HabitRepository.t),
          HabitService.complete_habit_today today habit_id completion_date r
          = (Err (HabitNotFoundError missing), r') ->
          0 < habit_id
          /\ date_le (match completion_date with None => today | Some d => d end)
               today
          /\ dict_get habit_id (_habits r) = None
          /\ missing = habit_id /\ r' = r).
Proof.
  intros today habit_id od r. rewrite complete_habit_today_eq.
  destruct (Z.leb_spec habit_id 0) as [Hid|Hid].
  - split; [reflexivity|]. split.
    + intros D _ _. split; [|lia]. unfold bad_id. eauto.
    + intros missing r' H. discriminate H.
  - split; [lia|]. cbv zeta. split.
    + intros D -> HD. rewrite HD. unfold future_date. split; eauto.
    + intros missing r'.
      destruct (date_gtb _ today) eqn:Hgt; [discriminate|].
      destruct (dict_get habit_id (_habits r)) as [h|].
      * destruct (opt_date_eqb _ _); [discriminate|].
        destruct (Habit.valid _); discriminate.
      * intros [= <- <-]. auto.
Qed.

Lemma complete_habit_validates_first_witness :
  HabitService.complete_habit_today (jan 15) 0 None init
  = (Err (InvalidHabitDataError (lit "habit_id") (str_of_int 0)
            (lit "Habit ID must be a positive integer")), init)
  /\ HabitService.complete_habit_today (jan 15) 7 (Some (jan 16)) init
     = (Err (InvalidHabitDataError (lit "completion_date") (isoformat (jan 16))
               (lit "Cannot complete habits for future dates")), init)
  /\ (0 < 7
      /\ date_le (jan 15) (jan 15)
      /\ dict_get 7 (_habits init) = @None Habit.t
      /\ 7 = 7 /\ init = init).
Proof.
  split; [|split].
  - apply (proj1 (complete_habit_validates_first (jan 15) 0 None init)).
    lia.
  - apply (proj2 (proj1 (proj2 (complete_habit_validates_first (jan 15) 7
                                   (Some (jan 16)) init))
                    (jan 16) eq_refl eq_refl)).
    lia.
  - apply (proj2 (proj2 (complete_habit_validates_first (jan 15) 7 None init))
             7 init).
    reflexivity.
Defined.

(** C10. A habit that was never completed can be given [status = completed]
    by [update_habit]: the stored habit then has [status = completed],
    [streak_days = 0] and [last_completed_at = None], and it meets neither
    the test counted by [completed_today] nor the one counted by
    [active_streaks_ge_3]; this happens in a store reached from the empty
    one, where [get_stats] then reports one habit and zero for both counts. *)
Theorem manual_completed_status_not_counted :
  (forall (today : date) (r : HabitRepository.t) (habit_id : Z) (h : Habit.t),
      0 < habit_id ->
      dict_get habit_id (_habits r) = Some h ->
      Habit.valid h = true ->
      Habit.streak_days h = 0 ->
      Habit.last_completed_at h = None ->
      exists h' : Habit.t,
        HabitService.update_habit habit_id (only_status completed) r
        = (Ok h', store_with r habit_id h')
        /\ Habit.status h' = completed
        /\ Habit.streak_days h' = 0
        /\ Habit.last_completed_at h' = None
        /\ opt_date_eqb (Habit.last_completed_at h') (Some today) = false
        /\ (3 <=? Habit.streak_days h') = false)
  /\ (exists (tr : trace) (h' : Habit.t) (r' : HabitRepository.t),
        HabitService.update_habit 1 (only_status completed) (run tr init)
        = (Ok h', r')
        /\ dict_get 1 (_habits r') = Some h'
        /\ Habit.status h' = completed
        /\ Habit.streak_days h' = 0
        /\ Habit.last_completed_at h' = None
        /\ forall today : date,
             HabitService.get_stats today r'
             = (Ok {| StatsResponse.total_habits := 1;
                      StatsResponse.completed_today := 0;
                      StatsResponse.active_streaks_ge_3 := 0 |}, r')).
Proof.
  split.
  - intros today r habit_id h Hid Hget Hvalid Hstreak Hlast.
    exists (merged h (only_status completed)).
    rewrite update_habit_eq.
    destruct (Z.leb_spec habit_id 0); [lia|].
    rewrite Hget. simpl Py.all. cbv iota.
    rewrite (merged_valid h (only_status completed) Hvalid eq_refl).
    simpl. rewrite Hstreak, Hlast. repeat split.
  - exists [(jan 15, CreateHabit exercise)],
      (with_status completed (created 1 exercise)),
      (store_with (run [(jan 15, CreateHabit exercise)] init) 1
         (with_status completed (created 1 exercise))).
    split; [reflexivity|]. repeat split.
Qed.

Lemma manual_completed_status_not_counted_witness :
  exists h' : Habit.t,
    HabitService.update_habit 1 (only_status completed)
      (run [(jan 15, CreateHabit exercise)] init)
    = (Ok h', store_with (run [(jan 15, CreateHabit exercise)] init) 1 h')
    /\ Habit.status h' = completed
    /\ Habit.streak_days h' = 0
    /\ Habit.last_completed_at h' = None
    /\ opt_date_eqb (Habit.last_completed_at h') (Some (jan 15)) = false
    /\ (3 <=? Habit.streak_days h') = false.
Proof.
  apply (proj1 manual_completed_status_not_counted (jan 15)
           (run [(jan 15, CreateHabit exercise)] init) 1 (created 1 exercise)).
  - lia.
  - reflexivity.
  - reflexivity.
  - reflexivity.
  - reflexivity.
Defined.

(** * Further properties of the store and the engine *)

(** ** More on dictionaries *)

Section DictOrder.
Context {V : Type}.
Implicit Types (d : dict V) (k : Z) (v : V).

Lemma dict_get_None_keys k d : dict_get k d = None <-> ~ In k (dict_keys d).
Proof.
  induction d as [|[k' v'] d IH]; simpl; [tauto|].
  destruct (Z.eqb_spec k k') as [->|Hk].
  - split; [discriminate | intros H; exfalso; auto].
  - rewrite IH. split; [intros H [E|E]; auto | tauto].
Qed.

Lemma dict_set_present_keys k v v0 d :
  dict_get k d = Some v0 -> dict_keys (dict_set k v d) = dict_keys d.
Proof.
  induction d as [|[k' v'] d IH]; simpl; [discriminate|].
  destruct (Z.eqb_spec k k') as [->|Hk]; simpl; [reflexivity|].
  intros H. now rewrite IH.
Qed.

Lemma dict_set_absent k v d :
  dict_get k d = None -> dict_set k v d = d ++ [(k, v)].
Proof.
  induction d as [|[k' v'] d IH]; simpl; [reflexivity|].
  destruct (Z.eqb_spec k k'); [discriminate|].
  intros H. now rewrite IH.
Qed.

Lemma dict_get_del_other k k' d :
  k' <> k -> dict_get k' (dict_del k d) = dict_get k' d.
Proof.
  intros Hk. induction d as [|[k0 v0] d IH]; simpl; [reflexivity|].
  destruct (Z.eqb_spec k k0) as [->|Hk0]; simpl.
  - destruct (Z.eqb_spec k' k0); [contradiction | reflexivity].
  - now rewrite IH.
Qed.

Lemma dict_keys_del_incl k d x : In x (dict_keys (dict_del k d)) -> In x (dict_keys d).
Proof.
  unfold dict_keys. rewrite !in_map_iff.
  intros (kv & <- & H). exists kv. split; [reflexivity|].
  eapply In_dict_del; eauto.
Qed.

Lemma dict_del_sorted k d :
  StronglySorted Z.lt (dict_keys d) ->
  StronglySorted Z.lt (dict_keys (dict_del k d)).
Proof.
  induction d as [|[k0 v0] d IH]; simpl; [auto|].
  intros Hs. inversion Hs as [|? ? Hd Hall]; subst.
  destruct (k =? k0); simpl; [exact Hd|].
  constructor; [now apply IH|].
  rewrite Forall_forall in *. intros x Hx.
  apply Hall. eapply dict_keys_del_incl; eauto.
Qed.

Lemma sorted_keys_lt k v d x :
  StronglySorted Z.lt (dict_keys ((k, v) :: d)) -> In x (dict_keys d) -> k < x.
Proof.
  simpl. intros Hs Hx. inversion Hs as [|? ? _ Hall]; subst.
  rewrite Forall_forall in Hall. auto.
Qed.

Lemma dict_get_del_same k d :
  StronglySorted Z.lt (dict_keys d) -> dict_get k (dict_del k d) = None.
Proof.
  induction d as [|[k0 v0] d IH]; simpl; [reflexivity|].
  intros Hs. destruct (Z.eqb_spec k k0) as [->|Hk].
  - apply dict_get_None_keys. intros Hin.
    pose proof (sorted_keys_lt k0 v0 d k0 Hs Hin). lia.
  - simpl. destruct (Z.eqb_spec k k0); [contradiction|].
    apply IH. now inversion Hs.
Qed.

Lemma dict_del_length k v0 d :
  dict_get k d = Some v0 -> S (List.length (dict_del k d)) = List.length d.
Proof.
  induction d as [|[k0 v1] d IH]; simpl; [discriminate|].
  destruct (k =? k0); simpl; [reflexivity|].
  intros H. now rewrite IH.
Qed.

Lemma sorted_snoc (l : list Z) (x : Z) :
  StronglySorted Z.lt l -> Forall (fun y => y < x) l ->
  StronglySorted Z.lt (l ++ [x]).
Proof.
  induction l as [|a l IH]; simpl; intros Hs Hall.
  - repeat constructor.
  - inversion Hs; inversion Hall; subst.
    constructor; [auto|].
    apply Forall_app. split; [assumption | repeat constructor; assumption].
Qed.
End DictOrder.

(** ** The order of the listing *)

Lemma wf_key_absent (r : HabitRepository.t) :
  wf r -> dict_get (_next_id r) (_habits r) = @None Habit.t.
Proof.
  intros [_ Hall]. apply dict_get_None_keys. unfold dict_keys.
  rewrite in_map_iff. intros ([k h] & Hk & Hin). simpl in Hk. subst k.
  rewrite Forall_forall in Hall. destruct (Hall _ Hin) as [Hlt _].
  simpl in Hlt. lia.
Qed.

Lemma after_call_keys_increasing (today : date) (c : call)
  (r : HabitRepository.t) :
  wf r -> keys_increasing r -> keys_increasing (after_call today c r).
Proof.
  intros Hwf Hs. unfold keys_increasing in *.
  destruct (after_call_cases today c r)
    as [-> | [(request & _ & Hv & ->) | [(k & h & request & Hget & Hv & ->)
       | [(k & h & D & Hget & _ & _ & Hv & ->) | (k & ->)]]]];
    auto; simpl.
  - rewrite (dict_set_absent _ _ _ (wf_key_absent r Hwf)).
    unfold dict_keys. rewrite map_app. simpl.
    apply sorted_snoc; [exact Hs|].
    destruct Hwf as [_ Hall]. rewrite Forall_forall in *.
    intros x Hx. apply in_map_iff in Hx as (kv & <- & Hin).
    destruct (Hall _ Hin) as [Hlt _]. lia.
  - now rewrite (dict_set_present_keys _ _ _ _ Hget).
  - now rewrite (dict_set_present_keys _ _ _ _ Hget).
  - now apply dict_del_sorted.
Qed.

Lemma run_keys_increasing (tr : trace) (r : HabitRepository.t) :
  wf r -> keys_increasing r -> keys_increasing (run tr r).
Proof.
  revert r. induction tr as [|[today c] tr IH]; intros r Hwf Hs; simpl; auto.
  apply IH; [apply after_call_wf, Hwf | apply after_call_keys_increasing; auto].
Qed.

Lemma reachable_keys_increasing (tr : trace) : keys_increasing (run tr init).
Proof. apply run_keys_increasing; [apply wf_init | constructor]. Qed.

(** ** The repository *)

(** X1. When [repository.create] returns, the habit has the identifier the
    counter held (an [id] key in the data is overridden), meets the model's
    constraints, is what [get_by_id] then returns for that identifier, the
    lookups of all other identifiers are as before and the counter has moved
    up by one; when it raises, it raises pydantic's [ValidationError] and
    the repository is as before, counter included. *)
Theorem repository_create_then_get :
  forall (habit_data : Habit.kwargs) (r r' : HabitRepository.t)
         (res : result Habit.t),
    HabitRepositoryMethods.create habit_data r = (res, r') ->
    (forall habit, res = Ok habit ->
       Habit.id habit = _next_id r
       /\ Habit.valid habit = true
       /\ _next_id r' = _next_id r + 1
       /\ HabitRepositoryMethods.get_by_id (Habit.id habit) r'
          = (Ok (Some habit), r')
       /\ (forall k, k <> Habit.id habit ->
             HabitRepositoryMethods.get_by_id k r'
             = (Ok (dict_get k (_habits r)), r')))
    /\ (forall e, res = Err e -> e = ValidationError /\ r' = r).
Proof.
  intros habit_data r r' res.
  unfold HabitRepositoryMethods.create, HabitRepositoryMethods.get_by_id.
  unfold Habit.new. simpl.
  destruct (Habit.k_name habit_data) as [n|]; simpl.
  - match goal with |- context [Habit.valid ?h] =>
      set (h0 := h); destruct (Habit.valid h0) eqn:Hv end.
    + intros [= <- <-]. split; [|discriminate].
      intros habit [= <-]. simpl.
      repeat split; auto.
      * now rewrite dict_get_set, Z.eqb_refl.
      * intros k Hk. rewrite dict_get_set.
        destruct (Z.eqb_spec k (_next_id r)); [contradiction | reflexivity].
    + intros [= <- <-]. split; [discriminate|]. now intros e [= <-].
  - intros [= <- <-]. split; [discriminate|]. now intros e [= <-].
Qed.

Lemma repository_create_then_get_witness :
  Habit.id (Habit.mk 1 (lit "Exercise") None pending 0 None) = _next_id init
  /\ Habit.valid (Habit.mk 1 (lit "Exercise") None pending 0 None) = true
  /\ _next_id (store_add init (created 1 exercise)) = _next_id init + 1
  /\ HabitRepositoryMethods.get_by_id
       (Habit.id (Habit.mk 1 (lit "Exercise") None pending 0 None))
       (store_add init (created 1 exercise))
     = (Ok (Some (Habit.mk 1 (lit "Exercise") None pending 0 None)),
        store_add init (created 1 exercise))
  /\ (forall k, k <> Habit.id (Habit.mk 1 (lit "Exercise") None pending 0 None) ->
        HabitRepositoryMethods.get_by_id k (store_add init (created 1 exercise))
        = (Ok (dict_get k (_habits init)), store_add init (created 1 exercise))).
Proof.
  apply (proj1 (repository_create_then_get (just_name (lit "Exercise")) init
                  (store_add init (created 1 exercise))
                  (Ok (Habit.mk 1 (lit "Exercise") None pending 0 None))
                  eq_refl)
           (Habit.mk 1 (lit "Exercise") None pending 0 None)).
  reflexivity.
Defined.

(** X2. [repository.update] never adds, removes or reorders keys and never
    touches the counter or the records under other identifiers: for an
    identifier that is not stored it returns [None] and changes nothing;
    when it returns a habit, that habit is the stored record rebuilt with
    the updates written over it, it meets the model's constraints and is
    what is now stored; when it raises, the repository is as before. *)
Theorem repository_update_in_place :
  forall (habit_id : Z) (updates : Habit.kwargs) (r r' : HabitRepository.t)
         (res : result (option Habit.t)),
    HabitRepositoryMethods.update habit_id updates r = (res, r') ->
    dict_keys (_habits r') = dict_keys (_habits r)
    /\ _next_id r' = _next_id r
    /\ (forall k, k <> habit_id ->
          dict_get k (_habits r') = dict_get k (_habits r))
    /\ (dict_get habit_id (_habits r) = None -> res = Ok None /\ r' = r)
    /\ (res = Ok None -> dict_get habit_id (_habits r) = None)
    /\ (forall h', res = Ok (Some h') ->
          dict_get habit_id (_habits r') = Some h'
          /\ Habit.valid h' = true
          /\ exists h, dict_get habit_id (_habits r) = Some h
                       /\ Habit.new (Habit.dict_update (Habit.dict h) updates)
                          = Ok h')
    /\ (forall e, res = Err e -> r' = r).
Proof.
  intros habit_id updates r r' res. unfold HabitRepositoryMethods.update.
  destruct (dict_get habit_id (_habits r)) as [h|] eqn:Hget.
  - destruct (Habit.new _) as [h'|e] eqn:Hnew; intros [= <- <-]; simpl.
    + split; [eapply dict_set_present_keys; eauto|].
      split; [reflexivity|]. split.
      { intros k Hk. rewrite dict_get_set.
        destruct (Z.eqb_spec k habit_id); [contradiction | reflexivity]. }
      split; [discriminate|]. split; [discriminate|]. split; [|discriminate].
      intros h'' [= <-]. rewrite dict_get_set, Z.eqb_refl.
      split; [reflexivity|]. split; [|eauto].
      unfold Habit.new in Hnew.
      destruct (Habit.k_id _); [|discriminate].
      destruct (Habit.k_name _); [|discriminate].
      destruct (Habit.valid _) eqn:Hv; [|discriminate].
      now injection Hnew as <-.
    + repeat split; auto; discriminate.
  - intros [= <- <-]. repeat split; auto; discriminate.
Qed.

Lemma repository_update_in_place_witness :
  dict_keys (_habits (store_with (run scenario init) 1
                        (with_status pending (exercise_after 2 16))))
  = dict_keys (_habits (run scenario init))
  /\ _next_id (store_with (run scenario init) 1
                 (with_status pending (exercise_after 2 16)))
     = _next_id (run scenario init)
  /\ (forall k, k <> 1 ->
        dict_get k (_habits (store_with (run scenario init) 1
                               (with_status pending (exercise_after 2 16))))
        = dict_get k (_habits (run scenario init)))
  /\ (dict_get 1 (_habits (run scenario init)) = None ->
      Ok (Some (with_status pending (exercise_after 2 16))) = Ok None
      /\ store_with (run scenario init) 1
           (with_status pending (exercise_after 2 16))
         = run scenario init)
  /\ (Ok (Some (with_status pending (exercise_after 2 16))) = Ok None ->
      dict_get 1 (_habits (run scenario init)) = None)
  /\ (forall h', Ok (Some (with_status pending (exercise_after 2 16)))
                 = Ok (Some h') ->
        dict_get 1 (_habits (store_with (run scenario init) 1
                               (with_status pending (exercise_after 2 16))))
        = Some h'
        /\ Habit.valid h' = true
        /\ exists h, dict_get 1 (_habits (run scenario init)) = Some h
                     /\ Habit.new
                          (Habit.dict_update (Habit.dict h)
                             (Habit.mk_kwargs None None None (Some pending)
                                None None))
                        = Ok h')
  /\ (forall e, Ok (Some (with_status pending (exercise_after 2 16))) = Err e ->
        store_with (run scenario init) 1
          (with_status pending (exercise_after 2 16))
        = run scenario init).
Proof.
  apply (repository_update_in_place 1
           (Habit.mk_kwargs None None None (Some pending) None None)
           (run scenario init)).
  reflexivity.
Defined.

(** ** Reading and deleting *)

(** X3. In a store the engine has reached, [get_habit_by_id] either returns
    the habit stored under the identifier, which is positive and is the
    habit's own [id], or fails with [InvalidHabitDataError] for an
    identifier that is not positive, or with [HabitNotFoundError] carrying
    the identifier when it is positive with no habit stored under it; the
    store is the same afterwards in all three cases. *)
Theorem get_habit_by_id_outcomes :
  forall (tr : trace) (habit_id : Z),
    (exists h,
        HabitService.get_habit_by_id habit_id (run tr init)
        = (Ok h, run tr init)
        /\ 0 < habit_id
        /\ Habit.id h = habit_id
        /\ dict_get habit_id (_habits (run tr init)) = Some h)
    \/ (habit_id <= 0
        /\ HabitService.get_habit_by_id habit_id (run tr init)
           = (Err (InvalidHabitDataError (lit "habit_id") (str_of_int habit_id)
                     (lit "Habit ID must be a positive integer")),
              run tr init))
    \/ (0 < habit_id
        /\ dict_get habit_id (_habits (run tr init)) = None
        /\ HabitService.get_habit_by_id habit_id (run tr init)
           = (Err (HabitNotFoundError habit_id), run tr init)).
Proof.
  intros tr habit_id. rewrite get_habit_by_id_eq.
  destruct (Z.leb_spec habit_id 0) as [Hid|Hid].
  - right; left. split; [exact Hid | reflexivity].
  - destruct (dict_get habit_id (_habits (run tr init))) as [h|] eqn:Hget.
    + left. exists h.
      destruct (wf_lookup _ _ _ (run_wf tr init wf_init) Hget) as (_ & Hh & _).
      auto.
    + right; right. auto.
Qed.

(** X4. [get_habits] never fails and never changes the store: without a
    filter it returns every stored habit in listing order; with a status it
    returns exactly the stored habits of that status; and the two filtered
    lists together have as many habits as the store. *)
Theorem get_habits_filters :
  forall (r : HabitRepository.t),
    HabitService.get_habits None r = (Ok (dict_values (_habits r)), r)
    /\ exists pendings completeds : list Habit.t,
         HabitService.get_habits (Some pending) r = (Ok pendings, r)
         /\ HabitService.get_habits (Some completed) r = (Ok completeds, r)
         /\ (forall h, In h pendings
                       <-> In h (dict_values (_habits r))
                           /\ Habit.status h = pending)
         /\ (forall h, In h completeds
                       <-> In h (dict_values (_habits r))
                           /\ Habit.status h = completed)
         /\ len pendings + len completeds = len (_habits r).
Proof.
  intros r. split; [reflexivity|].
  unfold HabitService.get_habits, bind, HabitRepositoryMethods.get_all, ret.
  eexists; eexists. split; [reflexivity|]. split; [reflexivity|].
  split; [|split].
  - intros h. rewrite filter_In.
    destruct (Habit.status h); simpl; intuition congruence.
  - intros h. rewrite filter_In.
    destruct (Habit.status h); simpl; intuition congruence.
  - unfold len, dict_values. rewrite <- (length_map snd (_habits r)).
    induction (map snd (_habits r)) as [|h l IH]; [reflexivity|].
    cbn [filter List.length]. destruct (Habit.status h);
      cbn [Status_eqb List.length]; lia.
Qed.

(** X5. In a store the engine has reached, a [delete_habit] that returns
    was given a positive identifier with a habit under it; afterwards
    looking the identifier up and deleting it again both fail with
    [HabitNotFoundError], every other habit is stored as before, the store
    has one habit fewer and the identifier counter has not moved.  A
    [delete_habit] that fails leaves the store as it was, with
    [InvalidHabitDataError] for an identifier that is not positive and
    [HabitNotFoundError] otherwise. *)
Theorem delete_habit_removes :
  forall (tr : trace) (habit_id : Z) (res : result unit)
         (r' : HabitRepository.t),
    HabitService.delete_habit habit_id (run tr init) = (res, r') ->
    (res = Ok tt ->
     0 < habit_id
     /\ dict_get habit_id (_habits (run tr init)) <> None
     /\ HabitService.get_habit_by_id habit_id r'
        = (Err (HabitNotFoundError habit_id), r')
     /\ HabitService.delete_habit habit_id r'
        = (Err (HabitNotFoundError habit_id), r')
     /\ (forall k, k <> habit_id ->
           dict_get k (_habits r') = dict_get k (_habits (run tr init)))
     /\ len (_habits r') + 1 = len (_habits (run tr init))
     /\ _next_id r' = _next_id (run tr init))
    /\ (forall e, res = Err e ->
          r' = run tr init
          /\ ((habit_id <= 0
               /\ e = InvalidHabitDataError (lit "habit_id")
                        (str_of_int habit_id)
                        (lit "Habit ID must be a positive integer"))
              \/ (0 < habit_id
                  /\ dict_get habit_id (_habits (run tr init)) = None
                  /\ e = HabitNotFoundError habit_id))).
Proof.
  intros tr habit_id res r'. rewrite delete_habit_eq.
  pose proof (reachable_keys_increasing tr) as Hs.
  set (r := run tr init) in *.
  destruct (Z.leb_spec habit_id 0) as [Hid|Hid].
  - intros [= <- <-]. split; [discriminate|].
    intros e [= <-]. split; [reflexivity|]. left. auto.
  - unfold dict_mem.
    destruct (dict_get habit_id (_habits r)) as [h|] eqn:Hget;
      intros [= <- <-].
    + split; [|discriminate]. intros _.
      assert (dict_get habit_id (_habits (store_without r habit_id)) = None)
        as Hgone by (apply dict_get_del_same, Hs).
      split; [exact Hid|]. split; [discriminate|].
      split; [|split; [|split; [|split]]].
      * rewrite get_habit_by_id_eq.
        destruct (Z.leb_spec habit_id 0); [lia|]. now rewrite Hgone.
      * rewrite delete_habit_eq.
        destruct (Z.leb_spec habit_id 0); [lia|].
        unfold dict_mem. now rewrite Hgone.
      * intros k Hk. simpl. now apply dict_get_del_other.
      * unfold len. simpl. rewrite <- (dict_del_length _ _ _ Hget). lia.
      * reflexivity.
    + split; [discriminate|].
      intros e [= <-]. split; [reflexivity|]. right. auto.
Qed.

Lemma delete_habit_removes_witness :
  (0 < 1
   /\ dict_get 1 (_habits (run (firstn 2 with_deletion) init)) <> None
   /\ HabitService.get_habit_by_id 1 (run (firstn 3 with_deletion) init)
      = (Err (HabitNotFoundError 1), run (firstn 3 with_deletion) init)
   /\ HabitService.delete_habit 1 (run (firstn 3 with_deletion) init)
      = (Err (HabitNotFoundError 1), run (firstn 3 with_deletion) init)
   /\ (forall k, k <> 1 ->
         dict_get k (_habits (run (firstn 3 with_deletion) init))
         = dict_get k (_habits (run (firstn 2 with_deletion) init)))
   /\ len (_habits (run (firstn 3 with_deletion) init)) + 1
      = len (_habits (run (firstn 2 with_deletion) init))
   /\ _next_id (run (firstn 3 with_deletion) init)
      = _next_id (run (firstn 2 with_deletion) init))
  /\ (init = run [] init
      /\ ((7 <= 0
           /\ HabitNotFoundError 7
              = InvalidHabitDataError (lit "habit_id") (str_of_int 7)
                  (lit "Habit ID must be a positive integer"))
          \/ (0 < 7
              /\ dict_get 7 (_habits (run [] init)) = None
              /\ HabitNotFoundError 7 = HabitNotFoundError 7))).
Proof.
  split.
  - apply (proj1 (delete_habit_removes (firstn 2 with_deletion) 1 (Ok tt)
                    (run (firstn 3 with_deletion) init) eq_refl)).
    reflexivity.
  - apply (proj2 (delete_habit_removes [] 7 (Err (HabitNotFoundError 7))
                    init eq_refl) (HabitNotFoundError 7)).
    reflexivity.
Defined.

(** ** Failures *)

(** X6. An engine call that raises, whichever call and whichever exception,
    leaves the store exactly as it was. *)
Theorem failed_call_leaves_store :
  forall (today : date) (c : call) (r : HabitRepository.t) (e : exn),
    call_error today c r = Some e -> after_call today c r = r.
Proof.
  intros today c r e.
  destruct c as [request | k request | k od | k]; unfold call_error; simpl.
  - rewrite create_habit_eq.
    destruct (CreateHabitRequest.valid request); [discriminate | reflexivity].
  - rewrite update_habit_eq.
    destruct (k <=? 0); [reflexivity|].
    destruct (dict_get k (_habits r)); [|reflexivity].
    destruct (Py.all _); [reflexivity|].
    destruct (Habit.valid _); [discriminate | reflexivity].
  - rewrite complete_habit_today_eq.
    destruct (k <=? 0); [reflexivity|]. cbv zeta.
    destruct (date_gtb _ today); [reflexivity|].
    destruct (dict_get k (_habits r)); [|reflexivity].
    destruct (opt_date_eqb _ _); [reflexivity|].
    destruct (Habit.valid _); [discriminate | reflexivity].
  - rewrite delete_habit_eq.
    destruct (k <=? 0); [reflexivity|].
    destruct (dict_mem k (_habits r)); [discriminate | reflexivity].
Qed.

Lemma failed_call_leaves_store_witness :
  after_call (jan 16) (CompleteHabit 1 (Some (jan 16))) (run scenario init)
  = run scenario init.
Proof.
  apply (failed_call_leaves_store (jan 16) (CompleteHabit 1 (Some (jan 16)))
           (run scenario init)
           (DuplicateCompletionError (lit "Exercise") (lit "2024-01-16"))).
  reflexivity.
Defined.

Local Ltac raised H :=
  simpl in H; injection H as <-;
  unfold bad_id, empty_update, future_date; discriminate.

(** X7. In a store the engine has reached, a call whose request passed its
    model's constructor raises nothing but the engine's own errors: never
    pydantic's [ValidationError], always an error that carries an error
    code. *)
Theorem reachable_calls_raise_domain_errors :
  forall (tr : trace) (today : date) (c : call) (e : exn),
    validated c ->
    call_error today c (run tr init) = Some e ->
    e <> ValidationError /\ error_code e <> None.
Proof.
  intros tr today c e Hv Herr.
  pose proof (run_wf tr init wf_init) as Hwf.
  set (r := run tr init) in *.
  assert (e <> ValidationError) as Hne.
  { destruct c as [request | k request | k od | k];
      unfold call_error in Herr; simpl in *.
    - rewrite create_habit_eq, Hv in Herr. discriminate.
    - rewrite update_habit_eq in Herr.
      destruct (k <=? 0); [raised Herr|].
      destruct (dict_get k (_habits r)) as [h|] eqn:Hget;
        [|raised Herr].
      destruct (Py.all _); [raised Herr|].
      destruct (wf_lookup _ _ _ Hwf Hget) as (_ & _ & Hh).
      rewrite (merged_valid h request Hh Hv) in Herr. discriminate.
    - rewrite complete_habit_today_eq in Herr.
      destruct (k <=? 0); [raised Herr|]. cbv zeta in Herr.
      destruct (date_gtb _ today); [raised Herr|].
      destruct (dict_get k (_habits r)) as [h|] eqn:Hget;
        [|raised Herr].
      destruct (opt_date_eqb _ _); [raised Herr|].
      destruct (wf_lookup _ _ _ Hwf Hget) as (_ & _ & Hh).
      match type of Herr with context [Habit.valid ?x] =>
        assert (Habit.valid x = true) as Hx end.
      { unfold Habit.valid in *; simpl.
        apply andb_true_iff in Hh as [Hnd Hs]. rewrite Hnd; simpl.
        apply Z.leb_le in Hs. apply Z.leb_le.
        unfold HabitService._calculate_new_streak.
        destruct (Habit.last_completed_at h); [|lia].
        destruct (_ =? 1); lia. }
      rewrite Hx in Herr. discriminate.
    - rewrite delete_habit_eq in Herr.
      destruct (k <=? 0); [raised Herr|].
      destruct (dict_mem k (_habits r)); [discriminate | raised Herr]. }
  split; [exact Hne|]. destruct e; simpl; congruence.
Qed.

Lemma reachable_calls_raise_domain_errors_witness :
  HabitNotFoundError 2 <> ValidationError
  /\ error_code (HabitNotFoundError 2) <> None.
Proof.
  apply (reachable_calls_raise_domain_errors scenario (jan 16)
           (UpdateHabit 2 (only_status pending)) (HabitNotFoundError 2)).
  - reflexivity.
  - reflexivity.
Defined.

(** ** What every reachable store looks like *)

(** X8. In a store the engine has reached, every habit is stored under its
    own [id], which is positive and below the identifier counter, and meets
    the constraints of the [Habit] model: a name of 1 to 80 code points, a
    description of at most 280 if there is one, and a streak that is not
    negative. *)
Theorem reachable_habits_well_formed :
  forall (tr : trace) (k : Z) (h : Habit.t),
    dict_get k (_habits (run tr init)) = Some h ->
    Habit.id h = k
    /\ 0 < k < _next_id (run tr init)
    /\ 1 <= len (Habit.name h) <= 80
    /\ (forall d, Habit.description h = Some d -> len d <= 280)
    /\ 0 <= Habit.streak_days h.
Proof.
  intros tr k h Hget.
  destruct (wf_lookup _ _ _ (run_wf tr init wf_init) Hget) as (Hk & Hid & Hv).
  unfold Habit.valid, Habit.name_ok, Habit.description_ok in Hv.
  rewrite !andb_true_iff, !Z.leb_le in Hv.
  destruct Hv as [[[Hlo Hhi] Hd] Hs].
  repeat split; auto; try lia.
  intros d Hdesc. rewrite Hdesc in Hd. now apply Z.leb_le.
Qed.

Lemma reachable_habits_well_formed_witness :
  Habit.id (exercise_after 2 16) = 1
  /\ 0 < 1 < _next_id (run scenario init)
  /\ 1 <= len (Habit.name (exercise_after 2 16)) <= 80
  /\ (forall d, Habit.description (exercise_after 2 16) = Some d ->
                len d <= 280)
  /\ 0 <= Habit.streak_days (exercise_after 2 16).
Proof.
  apply (reachable_habits_well_formed scenario 1 (exercise_after 2 16)).
  reflexivity.
Defined.

Lemma wf_ids_are_keys (r : HabitRepository.t) :
  wf r -> map Habit.id (dict_values (_habits r)) = dict_keys (_habits r).
Proof.
  intros [_ Hall]. unfold dict_values, dict_keys. rewrite map_map.
  apply map_ext_in. intros kv Hin.
  rewrite Forall_forall in Hall. now destruct (Hall _ Hin) as (_ & Hid & _).
Qed.

(** X9. In a store the engine has reached, the unfiltered listing has the
    habits in strictly increasing order of [id], the order of their
    creation, so no two listed habits share an identifier; and a creation
    that returns puts the new habit last in the listing, behind the habits
    listed before. *)
Theorem listing_in_creation_order :
  forall (tr : trace),
    (exists habits,
        HabitService.get_habits None (run tr init) = (Ok habits, run tr init)
        /\ StronglySorted Z.lt (map Habit.id habits))
    /\ (forall (request : CreateHabitRequest.t) (habit : Habit.t)
               (r' : HabitRepository.t),
          HabitService.create_habit request (run tr init) = (Ok habit, r') ->
          HabitService.get_habits None r'
          = (Ok (dict_values (_habits (run tr init)) ++ [habit]), r')).
Proof.
  intros tr.
  pose proof (run_wf tr init wf_init) as Hwf.
  pose proof (reachable_keys_increasing tr) as Hs.
  set (r := run tr init) in *. split.
  - exists (dict_values (_habits r)). split; [reflexivity|].
    rewrite (wf_ids_are_keys r Hwf). exact Hs.
  - intros request habit r'. rewrite create_habit_eq.
    destruct (CreateHabitRequest.valid request); [|discriminate].
    intros [= <- <-].
    unfold HabitService.get_habits, bind, HabitRepositoryMethods.get_all, ret.
    unfold store_add; simpl.
    rewrite (dict_set_absent _ _ _ (wf_key_absent r Hwf)).
    unfold dict_values. now rewrite map_app.
Qed.

Lemma listing_in_creation_order_witness :
  HabitService.get_habits None (run (firstn 4 with_deletion) init)
  = (Ok (dict_values (_habits (run (firstn 3 with_deletion) init))
         ++ [created 3 exercise]),
     run (firstn 4 with_deletion) init).
Proof.
  apply (proj2 (listing_in_creation_order (firstn 3 with_deletion)) exercise
           (created 3 exercise) (run (firstn 4 with_deletion) init)).
  reflexivity.
Defined.

(** X10. Under a clock that never runs backwards, no habit in a store the
    engine has reached has a completion date after the clock's date. *)
Theorem no_completion_in_the_future :
  forall (tr : trace) (now : date) (k : Z) (h : Habit.t) (d : date),
    nondecreasing (map fst tr ++ [now]) ->
    dict_get k (_habits (run tr init)) = Some h ->
    Habit.last_completed_at h = Some d ->
    date_gtb d now = false.
Proof.
  intros tr now k h d Hclock Hget Hlast.
  assert (stored_le now (run tr init)) as Hle
    by (apply run_stored_le; [exact Hclock | constructor]).
  unfold stored_le in Hle. rewrite Forall_forall in Hle.
  exact (Hle _ (dict_get_In _ _ _ Hget) d Hlast).
Qed.

Lemma no_completion_in_the_future_witness : date_gtb (jan 16) (jan 20) = false.
Proof.
  apply (no_completion_in_the_future scenario (jan 20) 1 (exercise_after 2 16)
           (jan 16)).
  - simpl. repeat split; reflexivity.
  - reflexivity.
  - reflexivity.
Defined.

(** ** Statistics *)

Lemma count_completed_on_le (today : date) (habits : list Habit.t) :
  (count_completed_on today habits <= List.length habits)%nat.
Proof.
  unfold count_completed_on.
  rewrite <- (length_map Habit.last_completed_at habits).
  apply count_occ_bound.
Qed.

Lemma count_streak_ge_3_le (habits : list Habit.t) :
  (count_streak_ge_3 habits <= List.length habits)%nat.
Proof. unfold count_streak_ge_3. apply filter_length_le. Qed.

(** X11. [get_stats] always returns, and in what it returns neither
    [completed_today] nor [active_streaks_ge_3] is negative or exceeds
    [total_habits]. *)
Theorem stats_within_total :
  forall (today : date) (r : HabitRepository.t),
    exists s : StatsResponse.t,
      HabitService.get_stats today r = (Ok s, r)
      /\ 0 <= StatsResponse.completed_today s <= StatsResponse.total_habits s
      /\ 0 <= StatsResponse.active_streaks_ge_3 s
         <= StatsResponse.total_habits s.
Proof.
  intros today r. rewrite get_stats_eq. eexists. split; [reflexivity|]. simpl.
  pose proof (count_completed_on_le today (dict_values (_habits r))).
  pose proof (count_streak_ge_3_le (dict_values (_habits r))).
  unfold dict_values in *. rewrite length_map in *. lia.
Qed.

Lemma dict_set_split {V : Type} (k : Z) (v v0 : V) (d : dict V) :
  dict_get k d = Some v0 ->
  exists l1 l2, d = l1 ++ (k, v0) :: l2 /\ dict_set k v d = l1 ++ (k, v) :: l2.
Proof.
  induction d as [|[k' v'] d IH]; simpl; [discriminate|].
  destruct (Z.eqb_spec k k') as [->|Hk].
  - intros [= ->]. now exists [], d.
  - intros H. destruct (IH H) as (l1 & l2 & -> & ->).
    now exists ((k', v') :: l1), l2.
Qed.

(** X12. When [complete_habit_today] returns, the number of habits counted
    as completed on the completion date has gone up by exactly one and the
    number of habits is the same: a completion for today raises
    [completed_today] by one and leaves [total_habits] alone. *)
Theorem completion_counts_once :
  forall (today : date) (habit_id : Z) (completion_date : option date)
         (D : date) (r r' : HabitRepository.t) (h' : Habit.t),
    D = match completion_date with None => today | Some d => d end ->
    HabitService.complete_habit_today today habit_id completion_date r
    = (Ok h', r') ->
    exists s s' : StatsResponse.t,
      HabitService.get_stats D r = (Ok s, r)
      /\ HabitService.get_stats D r' = (Ok s', r')
      /\ StatsResponse.completed_today s' = StatsResponse.completed_today s + 1
      /\ StatsResponse.total_habits s' = StatsResponse.total_habits s.
Proof.
  intros today habit_id od D r r' h' HD. rewrite complete_habit_today_eq.
  destruct (habit_id <=? 0); [discriminate|]. cbv zeta. rewrite <- HD.
  destruct (date_gtb D today); [discriminate|].
  destruct (dict_get habit_id (_habits r)) as [h|] eqn:Hget; [|discriminate].
  destruct (opt_date_eqb _ _) eqn:Hneq; [discriminate|].
  destruct (Habit.valid _); [|discriminate].
  intros [= <- <-]. rewrite !get_stats_eq.
  eexists; eexists. split; [reflexivity|]. split; [reflexivity|]. simpl.
  apply opt_date_eqb_neq in Hneq.
  destruct (dict_set_split habit_id
              (completed_on h D (HabitService._calculate_new_streak h D))
              h (_habits r) Hget) as (l1 & l2 & Hd & Hset).
  rewrite Hset, Hd.
  unfold count_completed_on, dict_values.
  rewrite !map_app, !count_occ_app, !length_app.
  cbn [map snd count_occ List.length completed_on Habit.last_completed_at].
  destruct (opt_date_eq_dec (Some D) (Some D)); [|congruence].
  destruct (opt_date_eq_dec (Habit.last_completed_at h) (Some D));
    [contradiction|].
  split; lia.
Qed.

Lemma completion_counts_once_witness :
  exists s s' : StatsResponse.t,
    HabitService.get_stats (jan 16) (run (firstn 2 scenario) init)
    = (Ok s, run (firstn 2 scenario) init)
    /\ HabitService.get_stats (jan 16) (run scenario init)
       = (Ok s', run scenario init)
    /\ StatsResponse.completed_today s' = StatsResponse.completed_today s + 1
    /\ StatsResponse.total_habits s' = StatsResponse.total_habits s.
Proof.
  apply (completion_counts_once (jan 16) 1 (Some (jan 16)) (jan 16)
           (run (firstn 2 scenario) init) (run scenario init)
           (exercise_after 2 16)).
  - reflexivity.
  - reflexivity.
Defined.

(** ** Streaks over several days *)

Lemma days_between_self (d : date) : days_between d d = 0.
Proof. unfold days_between. lia. Qed.

Lemma completed_on_valid (h : Habit.t) (D : date) (s : Z) :
  Habit.valid h = true -> 0 <= s -> Habit.valid (completed_on h D s) = true.
Proof.
  unfold Habit.valid; simpl. intros Hv Hs.
  apply andb_true_iff in Hv as [-> _]. now apply Z.leb_le.
Qed.

Lemma complete_next_day (today d0 d : date) (habit_id : Z) (h : Habit.t)
  (r : HabitRepository.t) :
  0 < habit_id ->
  dict_get habit_id (_habits r) = Some h ->
  Habit.valid h = true ->
  Habit.last_completed_at h = Some d0 ->
  days_between d d0 = 1 ->
  date_le d today ->
  HabitService.complete_habit_today today habit_id (Some d) r
  = (Ok (completed_on h d (Habit.streak_days h + 1)),
     store_with r habit_id (completed_on h d (Habit.streak_days h + 1))).
Proof.
  intros Hid Hget Hv Hlast Hgap Hle. rewrite complete_habit_today_eq.
  destruct (Z.leb_spec habit_id 0); [lia|]. cbv zeta.
  rewrite Hle, Hget, Hlast.
  assert (opt_date_eqb (Some d0) (Some d) = false) as ->.
  { apply opt_date_eqb_neq. intros [= ->].
    rewrite days_between_self in Hgap. discriminate. }
  unfold HabitService._calculate_new_streak. rewrite Hlast, Hgap. simpl.
  rewrite completed_on_valid; [reflexivity | exact Hv |].
  unfold Habit.valid in Hv. apply andb_true_iff in Hv as [_ Hs].
  apply Z.leb_le in Hs. lia.
Qed.

Lemma last_cons_default {A : Type} (l : list A) (a d : A) :
  last (a :: l) d = last l a.
Proof.
  revert a d. induction l as [|x l IH]; intros a d; [reflexivity|].
  change (last (a :: x :: l) d) with (last (x :: l) d).
  now rewrite !IH.
Qed.

Lemma complete_each_from (today : date) (habit_id : Z) (ds : list date) :
  forall (d0 : date) (h : Habit.t) (r : HabitRepository.t),
    0 < habit_id ->
    dict_get habit_id (_habits r) = Some h ->
    Habit.valid h = true ->
    Habit.last_completed_at h = Some d0 ->
    consecutive (d0 :: ds) ->
    Forall (fun d => date_le d today) ds ->
    exists h',
      dict_get habit_id (_habits (complete_each today habit_id ds r)) = Some h'
      /\ Habit.streak_days h' = Habit.streak_days h + len ds
      /\ Habit.last_completed_at h' = Some (last ds d0)
      /\ Habit.status h' = match ds with [] => Habit.status h | _ => completed end
      /\ Habit.name h' = Habit.name h.
Proof.
  induction ds as [|d ds IH]; intros d0 h r Hid Hget Hv Hlast Hcons Hle.
  - exists h. simpl. unfold len; simpl. repeat split; auto. lia.
  - destruct Hcons as [Hgap Hcons]. inversion Hle as [|? ? Hd Hle']; subst.
    cbn [complete_each].
    rewrite (complete_next_day today d0 d habit_id h r) by assumption.
    cbn [snd].
    set (h1 := completed_on h d (Habit.streak_days h + 1)).
    assert (Habit.valid h1 = true) as Hv1.
    { apply completed_on_valid; [exact Hv|].
      unfold Habit.valid in Hv. apply andb_true_iff in Hv as [_ Hs].
      apply Z.leb_le in Hs. lia. }
    destruct (IH d h1 (store_with r habit_id h1) Hid) as (h' & Hg & Hs & Hl & Hst & Hn);
      auto.
    { simpl. now rewrite dict_get_set, Z.eqb_refl. }
    exists h'. split; [exact Hg|]. split; [|split; [|split]].
    + rewrite Hs. unfold len. simpl Habit.streak_days.
      cbn [List.length]. lia.
    + rewrite Hl. now rewrite last_cons_default.
    + rewrite Hst. destruct ds; reflexivity.
    + rewrite Hn. reflexivity.
Qed.

(** X13. Completing a never-completed habit on each of [n >= 1] dates in
    turn, each date exactly one day after the one before and none after
    today, leaves the habit with [streak_days = n], the last of the dates as
    [last_completed_at], [status = completed] and its name unchanged. *)
Theorem consecutive_completions_build_streak :
  forall (today d : date) (ds : list date) (habit_id : Z) (h : Habit.t)
         (r : HabitRepository.t),
    0 < habit_id ->
    dict_get habit_id (_habits r) = Some h ->
    Habit.valid h = true ->
    Habit.last_completed_at h = None ->
    consecutive (d :: ds) ->
    Forall (fun x => date_gtb x today = false) (d :: ds) ->
    exists h',
      dict_get habit_id (_habits (complete_each today habit_id (d :: ds) r))
      = Some h'
      /\ Habit.streak_days h' = len (d :: ds)
      /\ Habit.last_completed_at h' = Some (last ds d)
      /\ Habit.status h' = completed
      /\ Habit.name h' = Habit.name h.
Proof.
  intros today d ds habit_id h r Hid Hget Hv Hlast Hcons Hle.
  inversion Hle as [|? ? Hd Hle']; subst.
  cbn [complete_each]. rewrite complete_habit_today_eq.
  destruct (Z.leb_spec habit_id 0); [lia|]. cbv zeta.
  rewrite Hd, Hget, Hlast. cbn [opt_date_eqb].
  unfold HabitService._calculate_new_streak. rewrite Hlast.
  rewrite completed_on_valid by (auto; lia). cbn [snd].
  set (h1 := completed_on h d 1).
  destruct (complete_each_from today habit_id ds d h1
              (store_with r habit_id h1) Hid)
    as (h' & Hg & Hs & Hl & Hst & Hn); auto.
  - simpl. now rewrite dict_get_set, Z.eqb_refl.
  - apply completed_on_valid; [exact Hv | lia].
  - exists h'. split; [exact Hg|]. split; [|split; [|split]].
    + rewrite Hs. unfold len. simpl Habit.streak_days. cbn [List.length]. lia.
    + exact Hl.
    + rewrite Hst. destruct ds; reflexivity.
    + exact Hn.
Qed.

Lemma consecutive_completions_build_streak_witness :
  exists h',
    dict_get 1
      (_habits (complete_each (jan 20) 1 three_days
                  (run [(jan 15, CreateHabit exercise)] init)))
    = Some h'
    /\ Habit.streak_days h' = len three_days
    /\ Habit.last_completed_at h' = Some (last [jan 16; jan 17] (jan 15))
    /\ Habit.status h' = completed
    /\ Habit.name h' = Habit.name (created 1 exercise).
Proof.
  apply (consecutive_completions_build_streak (jan 20) (jan 15)
           [jan 16; jan 17] 1 (created 1 exercise)
           (run [(jan 15, CreateHabit exercise)] init)).
  - lia.
  - reflexivity.
  - reflexivity.
  - reflexivity.
  - simpl. repeat split; reflexivity.
  - repeat constructor.
Defined.

(** ** Calendar order and the gap between two dates *)

Lemma year_length (y : Z) :
  _days_before_year (y + 1)
  = _days_before_year y + (if _is_leap y then 366 else 365).
Proof.
  unfold _days_before_year, _is_leap. cbv zeta.
  replace (y + 1 - 1) with y by lia.
  destruct (Z.eqb_spec (y mod 4) 0), (Z.eqb_spec (y mod 100) 0),
    (Z.eqb_spec (y mod 400) 0); simpl; Z.div_mod_to_equations; lia.
Qed.

Lemma days_before_year_mono (a b : Z) :
  a <= b -> _days_before_year a <= _days_before_year b.
Proof.
  unfold _days_before_year. cbv zeta. intros. Z.div_mod_to_equations. lia.
Qed.

Lemma date_valid_fields (d : date) :
  date_valid d = true ->
  1 <= month d <= 12 /\ 1 <= day d <= _days_in_month (year d) (month d).
Proof.
  unfold date_valid. rewrite !andb_true_iff, !Z.leb_le. lia.
Qed.

Local Ltac each_month m :=
  let H := fresh "Hm" in
  assert (m = 1 \/ m = 2 \/ m = 3 \/ m = 4 \/ m = 5 \/ m = 6 \/ m = 7
          \/ m = 8 \/ m = 9 \/ m = 10 \/ m = 11 \/ m = 12) as H by lia;
  repeat (destruct H as [H | H]); subst m.

Local Ltac look_up_tables :=
  repeat match goal with
         | |- context [nth ?n ?l ?d] =>
             let v := eval vm_compute in (nth n l d) in
             change (nth n l d) with v
         end.

(** Inside a year the day number of a valid date is between 1 and the
    length of the year. *)
Lemma day_of_year_bounds (y m d : Z) :
  1 <= m <= 12 -> 1 <= d <= _days_in_month y m ->
  1 <= _days_before_month y m + d <= (if _is_leap y then 366 else 365).
Proof.
  intros Hm. unfold _days_before_month, _days_in_month.
  each_month m; destruct (_is_leap y); look_up_tables; cbn -[Z.add]; lia.
Qed.

Lemma day_of_year_month_lt (y m1 d1 m2 d2 : Z) :
  1 <= m1 -> m1 < m2 -> m2 <= 12 ->
  d1 <= _days_in_month y m1 -> 1 <= d2 ->
  _days_before_month y m1 + d1 < _days_before_month y m2 + d2.
Proof.
  intros H1 H12 H2. unfold _days_before_month, _days_in_month.
  assert (1 <= m1 <= 12) as Hm1 by lia.
  assert (1 <= m2 <= 12) as Hm2 by lia.
  each_month m1; each_month m2; try lia;
    destruct (_is_leap y); look_up_tables; cbn -[Z.add]; lia.
Qed.

(** On valid dates [toordinal] follows the comparison of dates. *)
Lemma toordinal_lt (a b : date) :
  date_valid a = true -> date_valid b = true ->
  date_cmp a b = Lt -> toordinal a < toordinal b.
Proof.
  intros Ha Hb. apply date_valid_fields in Ha, Hb.
  destruct a as [y1 m1 d1], b as [y2 m2 d2].
  unfold date_cmp, toordinal; cbn [year month day] in *.
  destruct Ha as [Hm1 Hd1], Hb as [Hm2 Hd2].
  pose proof (day_of_year_bounds y1 m1 d1 Hm1 Hd1) as B1.
  pose proof (day_of_year_bounds y2 m2 d2 Hm2 Hd2) as B2.
  destruct (Z.compare_spec y1 y2) as [->|Hy|Hy]; [| |discriminate].
  - destruct (Z.compare_spec m1 m2) as [->|Hm|Hm]; [| |discriminate].
    + intros Hd. assert (d1 < d2) by exact Hd. lia.
    + intros _.
      pose proof (day_of_year_month_lt y2 m1 d1 m2 d2). lia.
  - intros _.
    pose proof (year_length y1) as Hlen.
    pose proof (days_before_year_mono (y1 + 1) y2 ltac:(lia)).
    destruct (_is_leap y1); lia.
Qed.

Lemma date_cmp_antisym (a b : date) :
  date_cmp a b = Gt -> date_cmp b a = Lt.
Proof.
  destruct a as [y1 m1 d1], b as [y2 m2 d2]. unfold date_cmp; simpl.
  rewrite (Z.compare_antisym y1 y2), (Z.compare_antisym m1 m2),
    (Z.compare_antisym d1 d2).
  destruct (y1 ?= y2), (m1 ?= m2), (d1 ?= d2); simpl; congruence.
Qed.

(** X14. For valid calendar dates the gap [(D - last).days] has the sign of
    the comparison of [D] with [last]: it is 0 only when the two dates are
    the same, positive when [D] is the later one, negative when [D] is the
    earlier one; so a completion dated before the last completion always
    gets the streak 1, whatever the streak was. *)
Theorem earlier_completion_resets_streak :
  forall (h : Habit.t) (D last : date),
    date_valid D = true ->
    date_valid last = true ->
    Habit.last_completed_at h = Some last ->
    (days_between D last = 0 -> D = last)
    /\ (date_gtb D last = true -> 0 < days_between D last)
    /\ (date_gtb last D = true ->
        days_between D last < 0
        /\ HabitService._calculate_new_streak h D = 1).
Proof.
  intros h D last HD Hlast Hh. unfold days_between.
  assert (forall a b, date_valid a = true -> date_valid b = true ->
                      date_gtb a b = true -> toordinal b < toordinal a) as Hgt.
  { intros a b Ha Hb Hab. apply toordinal_lt; auto.
    apply date_cmp_antisym. unfold date_gtb in Hab.
    destruct (date_cmp a b); congruence. }
  split; [|split].
  - intros H0. apply date_cmp_eq.
    destruct (date_cmp D last) eqn:Hc; [reflexivity | |].
    + pose proof (toordinal_lt D last HD Hlast Hc). lia.
    + pose proof (toordinal_lt last D Hlast HD (date_cmp_antisym _ _ Hc)). lia.
  - intros H. pose proof (Hgt D last HD Hlast H). lia.
  - intros H. pose proof (Hgt last D Hlast HD H) as Hlt.
    split; [lia|].
    unfold HabitService._calculate_new_streak, days_between. rewrite Hh.
    destruct (Z.eqb_spec (toordinal D - toordinal last) 1); [lia | reflexivity].
Qed.

Lemma earlier_completion_resets_streak_witness :
  (days_between (mkdate 2024 2 28) (mkdate 2024 2 29) = 0 ->
   mkdate 2024 2 28 = mkdate 2024 2 29)
  /\ (date_gtb (mkdate 2024 2 28) (mkdate 2024 2 29) = true ->
      0 < days_between (mkdate 2024 2 28) (mkdate 2024 2 29))
  /\ (date_gtb (mkdate 2024 2 29) (mkdate 2024 2 28) = true ->
      days_between (mkdate 2024 2 28) (mkdate 2024 2 29) < 0
      /\ HabitService._calculate_new_streak leap_february (mkdate 2024 2 28)
         = 1).
Proof.
  apply (earlier_completion_resets_streak leap_february (mkdate 2024 2 28)
           (mkdate 2024 2 29)).
  - reflexivity.
  - reflexivity.
  - reflexivity.
Defined.

(** ** Repeating an update, and clearing *)

Lemma merged_twice (h : Habit.t) (request : UpdateHabitRequest.t) :
  merged (merged h request) request = merged h request.
Proof. destruct request as [[n|] [d|] [s|]]; reflexivity. Qed.

Lemma dict_set_twice {V : Type} (k : Z) (v : V) (d : dict V) :
  dict_set k v (dict_set k v d) = dict_set k v d.
Proof.
  induction d as [|[k' v'] d IH]; simpl.
  - now rewrite Z.eqb_refl.
  - destruct (Z.eqb_spec k k') as [->|Hk]; simpl.
    + now rewrite Z.eqb_refl.
    + destruct (Z.eqb_spec k k'); [contradiction|]. now rewrite IH.
Qed.

(** X15. [update_habit] is idempotent: when it returns, the same call made
    again returns the same habit and leaves the store as the first call
    left it. *)
Theorem update_habit_idempotent :
  forall (habit_id : Z) (request : UpdateHabitRequest.t)
         (r r1 : HabitRepository.t) (h1 : Habit.t),
    HabitService.update_habit habit_id request r = (Ok h1, r1) ->
    HabitService.update_habit habit_id request r1 = (Ok h1, r1).
Proof.
  intros habit_id request r r1 h1. rewrite !update_habit_eq.
  destruct (habit_id <=? 0); [discriminate|].
  destruct (dict_get habit_id (_habits r)) as [h|]; [|discriminate].
  destruct (Py.all _); [discriminate|].
  destruct (Habit.valid (merged h request)) eqn:Hv; [|discriminate].
  intros [= <- <-]. simpl.
  rewrite dict_get_set, Z.eqb_refl, merged_twice, Hv.
  unfold store_with. simpl. now rewrite dict_set_twice.
Qed.

Lemma update_habit_idempotent_witness :
  HabitService.update_habit 1 (only_status pending)
    (store_with (run scenario init) 1
       (with_status pending (exercise_after 2 16)))
  = (Ok (with_status pending (exercise_after 2 16)),
     store_with (run scenario init) 1
       (with_status pending (exercise_after 2 16))).
Proof.
  apply (update_habit_idempotent 1 (only_status pending) (run scenario init)).
  reflexivity.
Defined.

(** X16. After [repository.clear()] the repository lists no habit and hands
    out identifiers from 1 again, whatever it held and whatever identifiers
    it had handed out: the next creation with a valid request returns a
    habit with [id = 1], and that habit is then the only one stored. *)
Theorem clear_restarts_identifiers :
  forall (r : HabitRepository.t) (request : CreateHabitRequest.t),
    CreateHabitRequest.valid request = true ->
    (_ <- HabitRepositoryMethods.clear ;; HabitRepositoryMethods.get_all) r
    = (Ok [], init)
    /\ (_ <- HabitRepositoryMethods.clear ;; HabitService.create_habit request) r
       = (Ok (created 1 request),
          {| _habits := [(1, created 1 request)]; _next_id := 2 |}).
Proof.
  intros r request Hv. split; [reflexivity|].
  unfold bind, HabitRepositoryMethods.clear.
  rewrite create_habit_eq, Hv. reflexivity.
Qed.

Lemma clear_restarts_identifiers_witness :
  (_ <- HabitRepositoryMethods.clear ;; HabitRepositoryMethods.get_all)
    (run with_deletion init)
  = (Ok [], init)
  /\ (_ <- HabitRepositoryMethods.clear ;; HabitService.create_habit exercise)
       (run with_deletion init)
     = (Ok (created 1 exercise),
        {| _habits := [(1, created 1 exercise)]; _next_id := 2 |}).
Proof.
  apply (clear_restarts_identifiers (run with_deletion init) exercise).
  reflexivity.
Defined.

(** ** The routes *)


(** X18. In a store the engine has reached, no route answers 500 to
    validated input: creating answers 201; listing and statistics answer
    200; updating answers 200, 400 or 404; deleting answers 204, 400 or
    404; and the listing and statistics routes leave the store as it was. *)
Theorem routes_answer_without_500 :
  forall (tr : trace) (today : date),
    (forall request,
        CreateHabitRequest.valid request = true ->
        main.status_code (fst (main.create_habit request (run tr init))) = 201)
    /\ (forall status,
          main.status_code (fst (main.get_habits status (run tr init))) = 200
          /\ snd (main.get_habits status (run tr init)) = run tr init)
    /\ (main.status_code (fst (main.get_stats today (run tr init))) = 200
        /\ snd (main.get_stats today (run tr init)) = run tr init)
    /\ (forall habit_id request,
          UpdateHabitRequest.valid request = true ->
          In (main.status_code
                (fst (main.update_habit habit_id request (run tr init))))
            [200; 400; 404])
    /\ (forall habit_id,
          In (main.status_code (fst (main.delete_habit habit_id (run tr init))))
            [204; 400; 404]).
Proof.
  intros tr today.
  pose proof (run_wf tr init wf_init) as Hwf.
  set (r := run tr init) in *.
  split; [|split; [|split; [|split]]].
  - intros request Hv. unfold main.create_habit, main.respond.
    now rewrite create_habit_eq, Hv.
  - intros status. split; reflexivity.
  - unfold main.get_stats, main.respond. rewrite get_stats_eq. split; reflexivity.
  - intros habit_id request Hv. unfold main.update_habit, main.respond.
    rewrite update_habit_eq.
    destruct (habit_id <=? 0); [simpl; tauto|].
    destruct (dict_get habit_id (_habits r)) as [h|] eqn:Hget; [|simpl; tauto].
    destruct (Py.all _); [simpl; tauto|].
    destruct (wf_lookup _ _ _ Hwf Hget) as (_ & _ & Hh).
    rewrite (merged_valid h request Hh Hv). simpl; tauto.
  - intros habit_id. unfold main.delete_habit, main.respond.
    rewrite delete_habit_eq.
    destruct (habit_id <=? 0); [simpl; tauto|].
    destruct (dict_mem habit_id (_habits r)); simpl; tauto.
Qed.

Lemma routes_answer_without_500_witness :
  main.status_code (fst (main.create_habit exercise (run scenario init))) = 201
  /\ In (main.status_code
           (fst (main.update_habit 1 nothing_supplied (run scenario init))))
       [200; 400; 404].
Proof.
  split.
  - apply (proj1 (routes_answer_without_500 scenario (jan 16)) exercise).
    reflexivity.
  - apply (proj1 (proj2 (proj2 (proj2 (routes_answer_without_500 scenario
                                          (jan 16))))) 1 nothing_supplied).
    reflexivity.
Defined.

(** ** What is stored: the habits created and not deleted *)

Lemma filter_all {A : Type} (f : A -> bool) (l : list A) :
  Forall (fun x => f x = true) l -> filter f l = l.
Proof.
  induction 1 as [|x l Hx _ IH]; simpl; [reflexivity|]. now rewrite Hx, IH.
Qed.

Lemma dict_keys_del {V : Type} (k : Z) (d : dict V) :
  StronglySorted Z.lt (dict_keys d) ->
  dict_keys (dict_del k d) = filter (fun x => negb (x =? k)) (dict_keys d).
Proof.
  induction d as [|[k0 v0] d IH]; simpl; [reflexivity|].
  intros Hs. inversion Hs as [|? ? Hd Hall]; subst.
  destruct (Z.eqb_spec k k0) as [->|Hk].
  - rewrite Z.eqb_refl. simpl. symmetry. apply filter_all.
    eapply Forall_impl; [|exact Hall]. simpl. intros x Hx.
    destruct (Z.eqb_spec x k0); [lia | reflexivity].
  - destruct (Z.eqb_spec k0 k); [congruence|]. simpl.
    now rewrite <- IH.
Qed.

Lemma filter_not_among_cons (k : Z) (deleted l : list Z) :
  filter (not_among (k :: deleted)) l
  = filter (not_among deleted) (filter (fun x => negb (x =? k)) l).
Proof.
  induction l as [|x l IH]; simpl; [reflexivity|].
  unfold not_among at 1. simpl existsb. rewrite negb_orb.
  fold (not_among deleted x).
  destruct (x =? k); simpl; [exact IH|].
  destruct (not_among deleted x); simpl; now rewrite IH.
Qed.

Lemma created_ids_above (tr : trace) (r : HabitRepository.t) :
  Forall (fun x => _next_id r <= x) (created_ids tr r).
Proof.
  destruct (created_ids_run tr r) as (n & -> & _).
  unfold ids_from. rewrite Forall_forall. intros x Hx.
  apply in_map_iff in Hx as (i & <- & _). lia.
Qed.

Lemma stored_keys_from (tr : trace) :
  forall r : HabitRepository.t,
    wf r -> keys_increasing r ->
    dict_keys (_habits (run tr r))
    = filter (not_among (deleted_ids tr r))
        (dict_keys (_habits r) ++ created_ids tr r).
Proof.
  induction tr as [|[today c] tr IH]; intros r Hwf Hs.
  - simpl. rewrite app_nil_r. symmetry. apply filter_all.
    rewrite Forall_forall. reflexivity.
  - cbn [run created_ids deleted_ids].
    rewrite (IH (after_call today c r))
      by (auto using after_call_wf, after_call_keys_increasing).
    destruct c as [request | k request | k od | k]; cbn [after_call app].
    + rewrite create_habit_eq.
      destruct (CreateHabitRequest.valid request); cbn [fst snd app]; [|reflexivity].
      unfold store_add. cbn [_habits created Habit.id].
      rewrite (dict_set_absent _ _ _ (wf_key_absent r Hwf)).
      unfold dict_keys. rewrite map_app, <- app_assoc. reflexivity.
    + rewrite update_habit_eq.
      destruct (k <=? 0); [reflexivity|].
      destruct (dict_get k (_habits r)) as [h|] eqn:Hget; [|reflexivity].
      destruct (Py.all _); [reflexivity|].
      destruct (Habit.valid _); [|reflexivity].
      cbn [snd store_with _habits].
      now rewrite (dict_set_present_keys _ _ _ _ Hget).
    + rewrite complete_habit_today_eq.
      destruct (k <=? 0); [reflexivity|]. cbv zeta.
      destruct (date_gtb _ today); [reflexivity|].
      destruct (dict_get k (_habits r)) as [h|] eqn:Hget; [|reflexivity].
      destruct (opt_date_eqb _ _); [reflexivity|].
      destruct (Habit.valid _); [|reflexivity].
      cbn [snd store_with _habits].
      now rewrite (dict_set_present_keys _ _ _ _ Hget).
    + rewrite delete_habit_eq.
      destruct (k <=? 0); [reflexivity|].
      unfold dict_mem.
      destruct (dict_get k (_habits r)) as [h|] eqn:Hget; [|reflexivity].
      cbn [fst snd store_without _habits app].
      rewrite filter_not_among_cons. f_equal.
      rewrite filter_app, (dict_keys_del k _ Hs). f_equal.
      symmetry. apply filter_all.
      destruct (wf_lookup _ _ _ Hwf Hget) as (Hk & _).
      pose proof (created_ids_above tr (store_without r k)) as Habove.
      eapply Forall_impl; [|exact Habove]. simpl. intros x Hx.
      destruct (Z.eqb_spec x k); [lia | reflexivity].
Qed.

(** X19. In a store the engine has reached, the unfiltered listing holds
    exactly the habits that were created and whose deletion has not
    returned since, in the order of their creation: the [id]s listed are the
    created identifiers with the deleted ones taken out. *)
Theorem listing_is_created_minus_deleted :
  forall (tr : trace),
    exists habits : list Habit.t,
      HabitService.get_habits None (run tr init) = (Ok habits, run tr init)
      /\ map Habit.id habits
         = filter (not_among (deleted_ids tr init)) (created_ids tr init).
Proof.
  intros tr. exists (dict_values (_habits (run tr init))).
  split; [reflexivity|].
  rewrite (wf_ids_are_keys _ (run_wf tr init wf_init)).
  rewrite (stored_keys_from tr init wf_init); [reflexivity | constructor].
Qed.

Example listing_after_deletion :
  created_ids with_deletion init = [1; 2; 3]
  /\ deleted_ids with_deletion init = [1]
  /\ map Habit.id (dict_values (_habits (run with_deletion init))) = [2; 3].
Proof. repeat split. Qed.

(** ** Completion does not read the status *)

Lemma dict_get_restatus (f : Habit.t -> Status) (k : Z)
  (r : HabitRepository.t) :
  dict_get k (_habits (restatus f r))
  = match dict_get k (_habits r) with
    | Some h => Some (with_status (f h) h)
    | None => None
    end.
Proof.
  unfold restatus; simpl.
  induction (_habits r) as [|[k' h'] d IH]; simpl; [reflexivity|].
  destruct (k =? k'); [reflexivity | exact IH].
Qed.

(** X20. The outcome of [complete_habit_today] does not depend on the
    status of the stored habits: with every status rewritten in any way, the
    call returns the same habit (same streak, same date, status completed)
    or raises the same exception. *)
Theorem completion_ignores_status :
  forall (f : Habit.t -> Status) (today : date) (habit_id : Z)
         (completion_date : option date) (r : HabitRepository.t),
    fst (HabitService.complete_habit_today today habit_id completion_date
           (restatus f r))
    = fst (HabitService.complete_habit_today today habit_id completion_date r).
Proof.
  intros f today habit_id od r. rewrite !complete_habit_today_eq.
  destruct (habit_id <=? 0); [reflexivity|]. cbv zeta.
  destruct (date_gtb _ today); [reflexivity|].
  rewrite dict_get_restatus.
  destruct (dict_get habit_id (_habits r)) as [h|]; [|reflexivity].
  cbn [with_status Habit.last_completed_at Habit.name].
  destruct (opt_date_eqb _ _); [reflexivity|].
  unfold HabitService._calculate_new_streak, completed_on, Habit.valid.
  cbn [with_status Habit.last_completed_at Habit.name Habit.description
         Habit.streak_days Habit.id].
  destruct (_ && _); reflexivity.
Qed.
